(** * Campus bus-seat booking service: a shallow embedding of [app.py]

    The request handlers of [app.py] are embedded as functions over an
    explicit store.  Each handler reads and writes the hosted tables through
    the query API ([select], [insert], [update], [delete]); here the tables
    are lists of rows in insertion order, a [select ... eq ...] is a [filter],
    [.data[0]] is the head of the filtered list, and a failing Python
    expression (subscripting [None], an empty [.data[0]], a [KeyError] on the
    session) is an exception that the handler's [try/except] turns into its
    error flash, keeping the writes made before it.

    The table schema (constraints, defaults) is not part of [app.py]; the
    store assigns primary keys from per-table sequences and stamps a new
    booking with its own clock, and enforces nothing else. *)

From Stdlib Require Import ZArith List String Ascii Bool Lia.
From Stdlib Require Import FinFun Permutation Sorted DecimalString.
From Stdlib Require OrderedTypeEx.
Import ListNotations.
Open Scope string_scope.
Open Scope Z_scope.

(** ** Python strings

    A [str] is modelled as a [string] whose characters are the code points
    below 256.  The character predicates follow Python's Unicode tables on
    that range. *)

Module Py.

Definition ord (c : ascii) : Z := Z.of_N (N_of_ascii c).

Definition between (lo hi x : Z) : bool := (lo <=? x) && (x <=? hi).

(** [c.isupper()] for a one-character string. *)
Definition isupper (c : ascii) : bool :=
  between 65 90 (ord c) || between 192 214 (ord c) || between 216 222 (ord c).

(** [c.isdigit()] for a one-character string (the superscripts count). *)
Definition isdigit (c : ascii) : bool :=
  between 48 57 (ord c) || (ord c =? 178) || (ord c =? 179) || (ord c =? 185).

(** [c.isspace()], the characters [str.strip()] removes. *)
Definition isspace (c : ascii) : bool :=
  between 9 13 (ord c) || between 28 32 (ord c) || (ord c =? 133) || (ord c =? 160).

Fixpoint chars (s : string) : list ascii :=
  match s with
  | EmptyString => []
  | String c r => c :: chars r
  end.

Fixpoint of_chars (l : list ascii) : string :=
  match l with
  | [] => EmptyString
  | c :: r => String c (of_chars r)
  end.

(** [len(s)] *)
Definition len (s : string) : Z := Z.of_nat (String.length s).

(** [any(p(ch) for ch in s)] *)
Definition any (p : ascii -> bool) (s : string) : bool := existsb p (chars s).

(** [ch in s] for a one-character [ch]. *)
Definition char_in (s : string) (c : ascii) : bool :=
  existsb (Ascii.eqb c) (chars s).

(** [s.isdigit()]: non-empty and every character a digit. *)
Definition str_isdigit (s : string) : bool :=
  negb (String.eqb s "") && forallb isdigit (chars s).

(** [s.startswith(p)] *)
Definition startswith (s p : string) : bool := String.prefix p s.

(** [sub in s] *)
Fixpoint contains (sub s : string) : bool :=
  String.prefix sub s ||
  match s with
  | EmptyString => false
  | String _ r => contains sub r
  end.

(** [s.endswith(suf)] *)
Fixpoint endswith (s suf : string) : bool :=
  String.eqb s suf ||
  match s with
  | EmptyString => false
  | String _ r => endswith r suf
  end.

Fixpoint lstrip (s : string) : string :=
  match s with
  | EmptyString => EmptyString
  | String c r => if isspace c then lstrip r else s
  end.

Definition rev_string (s : string) : string := of_chars (rev (chars s)).

(** [s.strip()] *)
Definition strip (s : string) : string :=
  rev_string (lstrip (rev_string (lstrip s))).

(** [a, b = s.split("T")]: the unpacking succeeds when [s] holds exactly
    one ['T']; otherwise it raises [ValueError]. *)
Fixpoint split_once (sep : ascii) (s : string) : option (string * string) :=
  match s with
  | EmptyString => None
  | String c r =>
      if Ascii.eqb c sep then
        if char_in r sep then None else Some (EmptyString, r)
      else
        match split_once sep r with
        | Some (a, b) => Some (String c a, b)
        | None => None
        end
  end.

(** [re.fullmatch] of a pattern that is a sequence of character classes. *)
Fixpoint fullmatch (classes : list (ascii -> bool)) (s : string) : bool :=
  match classes, s with
  | [], EmptyString => true
  | p :: ps, String c r => p c && fullmatch ps r
  | _, _ => false
  end.

Definition lit (a : ascii) : ascii -> bool := Ascii.eqb a.
Definition cls_A_Z (c : ascii) : bool := between 65 90 (ord c).
Definition cls_0_9 (c : ascii) : bool := between 48 57 (ord c).

End Py.

(** ** Registration checks ([register], lines 116-151) *)

Definition special_chars : string := "@#$%&*!?".

(** The condition under [if not (...)] at lines 130-133. *)
Definition password_ok (password : string) : bool :=
  Py.any Py.isupper password &&
  Py.any Py.isdigit password &&
  Py.any (Py.char_in special_chars) password &&
  (8 <=? Py.len password).

(** [r"HU22[A-Z]{4}[0-9]{7}"] *)
Definition year4_pattern : list (ascii -> bool) :=
  [Py.lit "H"; Py.lit "U"; Py.lit "2"; Py.lit "2"]
  ++ repeat Py.cls_A_Z 4 ++ repeat Py.cls_0_9 7.

(** The value of [valid] after lines 138-147. *)
Definition valid_student_id (year : Z) (student_id : string) : bool :=
  if (year =? 1) || (year =? 2) || (year =? 3) then
    if Py.str_isdigit student_id && (Py.len student_id =? 10) then
      ((year =? 1) && Py.startswith student_id "2025")
      || ((year =? 2) && Py.startswith student_id "2024")
      || ((year =? 3) && Py.startswith student_id "2023")
    else false
  else if year =? 4 then Py.fullmatch year4_pattern student_id
  else false.

(** ** Rows of the store *)

(** A [datetime]: naive (no offset) or aware, counted in microseconds.
    [datetime.fromisoformat] yields an aware value exactly when the stored
    text carries an offset (or a ['Z'], rewritten to ['+00:00'] first). *)
Inductive datetime : Type :=
| Naive (us : Z)
| Aware (us : Z).

(** [a - b] on datetimes: a [timedelta] in microseconds; mixing a naive and
    an aware operand raises [TypeError]. *)
Definition datetime_sub (a b : datetime) : option Z :=
  match a, b with
  | Naive x, Naive y => Some (x - y)
  | Aware x, Aware y => Some (x - y)
  | _, _ => None
  end.

(** [timedelta(minutes=2)] in microseconds. *)
Definition hold_period : Z := 2 * 60 * 1000000.

Inductive BookingStatus : Type := confirmed | cancelled.

Definition status_eqb (a b : BookingStatus) : bool :=
  match a, b with
  | confirmed, confirmed | cancelled, cancelled => true
  | _, _ => false
  end.

Record User : Type := mkUser {
  user_id : Z;
  u_student_id : string;
  u_year : Z;
  u_name : string;
  u_email : string;
  u_phone : string;
  u_password_hash : string;
  u_is_admin : bool
}.

Record Route : Type := mkRoute {
  route_id : Z;
  route_name : string;
  start_point : string;
  end_point : string
}.

Record Bus : Type := mkBus {
  bus_id : Z;
  bus_number : string;
  capacity : Z;
  bus_route_id : Z
}.

Record Schedule : Type := mkSchedule {
  schedule_id : Z;
  sched_bus_id : Z;
  departure_date : string;
  departure_time : string;
  available_seats : Z;
  sched_status : string;
  created_by_admin : option Z;
  updated_by_admin : option Z
}.

Record Booking : Type := mkBooking {
  booking_id : Z;
  b_user_id : Z;
  b_schedule_id : Z;
  seat_number : Z;
  status : BookingStatus;
  booking_time : datetime
}.

Inductive ActionType : Type := act_create | act_update.

(** A row of [admin_activity_log] (its free-text description is left out). *)
Record Activity : Type := mkActivity {
  act_admin_id : Z;
  action_type : ActionType;
  record_id : Z
}.

(** The tables the modelled handlers touch, and the sequences behind the
    generated keys. *)
Record DB : Type := mkDB {
  users : list User;
  routes : list Route;
  buses : list Bus;
  schedules : list Schedule;
  bookings : list Booking;
  admin_activity_log : list Activity;
  next_user_id : Z;
  next_schedule_id : Z;
  next_booking_id : Z
}.

(** The Flask session: the keys the handlers read. *)
Record Session : Type := mkSession {
  s_user_id : option Z;
  s_admin_id : option Z;
  s_is_admin : bool
}.

(** ** Store computations

    A computation takes the store and returns the store after its writes
    together with its result, or [None] when a Python exception was raised. *)

Definition Store (A : Type) : Type := DB -> DB * option A.

Definition ret {A} (a : A) : Store A := fun db => (db, Some a).

Definition raise {A} : Store A := fun db => (db, None).

Definition bind {A B} (m : Store A) (k : A -> Store B) : Store B :=
  fun db =>
    match m db with
    | (db', Some a) => k a db'
    | (db', None) => (db', None)
    end.

Definition gets {A} (f : DB -> A) : Store A := fun db => (db, Some (f db)).

Definition modify (f : DB -> DB) : Store unit := fun db => (f db, Some tt).

(** Subscripting a value that may be [None], or [.data[0]] of a result that
    may be empty. *)
Definition subscript {A} (o : option A) : Store A :=
  match o with
  | Some a => ret a
  | None => raise
  end.

(** [try: body except Exception: handler] *)
Definition try_except {A} (body : Store A) (handler : Store A) : Store A :=
  fun db =>
    match body db with
    | (db', Some a) => (db', Some a)
    | (db', None) => handler db'
    end.

Notation "x <- c ;; k" := (bind c (fun x => k))
  (at level 61, c at next level, right associativity).
Notation "c ;;; k" := (bind c (fun _ => k))
  (at level 61, right associativity).

(** ** Responses *)

Inductive Endpoint : Type :=
| ep_login
| ep_dashboard
| ep_book_seat (sid : Z)
| ep_admin_login
| ep_admin_panel
| ep_manage_buses.

(** The messages passed to [flash], named after their text. *)
Inductive Flash : Type :=
| AllFieldsRequired
| UseCollegeMail
| InvalidPhone
| WeakPassword
| InvalidStudentId
| AlreadyRegistered
| RegistrationSuccessful
| AlreadyBooked
| NoSeatsAvailable
| ScheduleNotFound
| InvalidSeatNumber (bus_capacity : Z)
| SeatNoLongerAvailable
| BookingConfirmed
| BookingNotFound
| CannotCancelYet
| BookingCancelled
| UnauthorizedAccess
| BusNotFound
| SeatsExceedCapacity (bus_capacity : Z)
| ScheduleCreated
| ScheduleCancelled
| ScheduleUpdated
| ErrorFlash.

(** [ticket_data] of [view_ticket]. *)
Record Ticket : Type := mkTicket {
  t_booking_id : Z;
  t_student_id : string;
  t_name : string;
  t_email : string;
  t_phone : string;
  t_seat_number : Z;
  t_bus_number : string;
  t_route_name : string;
  t_start_point : string;
  t_end_point : string;
  t_departure_date : string;
  t_departure_time : string;
  t_booking_time : datetime
}.

(** What [book_seat] hands to its template. *)
Record SeatPicker : Type := mkSeatPicker {
  p_schedule_id : Z;
  p_bus_number : string;
  p_capacity : Z;
  p_route_name : string;
  p_available_seats : Z;
  p_offered : list Z
}.

(** What the GET part of [edit_schedule] hands to its template. *)
Record EditForm : Type := mkEditForm {
  e_schedule_id : Z;
  e_bus_number : string;
  e_route : string;
  e_departure : string;
  e_total_seats : Z
}.

Inductive Body : Type :=
| Redirect (target : Endpoint)
| RenderRegister
| RenderCreateSchedule
| RenderBookSeat (p : SeatPicker)
| RenderEditSchedule (f : EditForm)
| RenderTicket (t : Ticket).

Record Response : Type := mkResponse {
  body : Body;
  flashes : list Flash
}.

Definition respond (b : Body) (f : Flash) : Response := mkResponse b [f].

(** A handler whose whole body sits in [try/except]: an exception becomes
    the response of the [except] branch. *)
Definition guarded (m : Store Response) (on_exception : Response)
  : DB -> DB * Response :=
  fun db =>
    match m db with
    | (db', Some r) => (db', r)
    | (db', None) => (db', on_exception)
    end.

(** ** Queries *)

Definition head {A} (l : list A) : option A :=
  match l with
  | [] => None
  | a :: _ => Some a
  end.

(** [not result.data] *)
Definition is_empty {A} (l : list A) : bool :=
  match l with
  | [] => true
  | _ :: _ => false
  end.

Definition schedules_by_id (sid : Z) (db : DB) : list Schedule :=
  filter (fun s => schedule_id s =? sid) (schedules db).

Definition buses_by_number (n : string) (db : DB) : list Bus :=
  filter (fun b => String.eqb (bus_number b) n) (buses db).

(** The embedded [buses(...)] of a schedule row: the referenced bus, or
    [None]. *)
Definition bus_of (db : DB) (s : Schedule) : option Bus :=
  find (fun b => bus_id b =? sched_bus_id s) (buses db).

Definition route_of (db : DB) (b : Bus) : option Route :=
  find (fun r => route_id r =? bus_route_id b) (routes db).

Definition schedule_of (db : DB) (b : Booking) : option Schedule :=
  find (fun s => schedule_id s =? b_schedule_id b) (schedules db).

Definition user_of (db : DB) (b : Booking) : option User :=
  find (fun u => user_id u =? b_user_id b) (users db).

(** [.eq('schedule_id', sid).eq('seat_number', n).eq('status', 'confirmed')] *)
Definition confirmed_on_seat (sid n : Z) (db : DB) : list Booking :=
  filter (fun b => (b_schedule_id b =? sid) && (seat_number b =? n)
                   && status_eqb (status b) confirmed) (bookings db).

(** [.eq('user_id', uid).eq('schedule_id', sid).eq('status', 'confirmed')] *)
Definition confirmed_of_user (uid sid : Z) (db : DB) : list Booking :=
  filter (fun b => (b_user_id b =? uid) && (b_schedule_id b =? sid)
                   && status_eqb (status b) confirmed) (bookings db).

(** [.eq('schedule_id', sid).eq('status', 'confirmed')] *)
Definition confirmed_on_schedule (sid : Z) (db : DB) : list Booking :=
  filter (fun b => (b_schedule_id b =? sid)
                   && status_eqb (status b) confirmed) (bookings db).

(** ** Writes *)

Definition set_users (l : list User) (n : Z) (db : DB) : DB :=
  mkDB l (routes db) (buses db) (schedules db) (bookings db)
       (admin_activity_log db) n (next_schedule_id db) (next_booking_id db).

Definition set_schedules (l : list Schedule) (db : DB) : DB :=
  mkDB (users db) (routes db) (buses db) l (bookings db)
       (admin_activity_log db) (next_user_id db) (next_schedule_id db)
       (next_booking_id db).

Definition set_bookings (l : list Booking) (db : DB) : DB :=
  mkDB (users db) (routes db) (buses db) (schedules db) l
       (admin_activity_log db) (next_user_id db) (next_schedule_id db)
       (next_booking_id db).

Definition insert_user (mk : Z -> User) : Store unit :=
  modify (fun db =>
    set_users (users db ++ [mk (next_user_id db)]) (next_user_id db + 1) db).

Definition insert_booking (mk : Z -> Booking) : Store unit :=
  modify (fun db =>
    mkDB (users db) (routes db) (buses db) (schedules db)
         (bookings db ++ [mk (next_booking_id db)])
         (admin_activity_log db) (next_user_id db) (next_schedule_id db)
         (next_booking_id db + 1)).

(** The insert returns the new row ([result.data[0]]). *)
Definition insert_schedule (mk : Z -> Schedule) : Store Schedule :=
  fun db =>
    let row := mk (next_schedule_id db) in
    (mkDB (users db) (routes db) (buses db) (schedules db ++ [row])
          (bookings db) (admin_activity_log db) (next_user_id db)
          (next_schedule_id db + 1) (next_booking_id db),
     Some row).

Definition insert_activity (a : Activity) : Store unit :=
  modify (fun db =>
    mkDB (users db) (routes db) (buses db) (schedules db) (bookings db)
         (admin_activity_log db ++ [a]) (next_user_id db)
         (next_schedule_id db) (next_booking_id db)).

Definition with_available_seats (n : Z) (s : Schedule) : Schedule :=
  mkSchedule (schedule_id s) (sched_bus_id s) (departure_date s)
             (departure_time s) n (sched_status s) (created_by_admin s)
             (updated_by_admin s).

(** [update({"available_seats": n}).eq('schedule_id', sid)] *)
Definition update_available_seats (sid n : Z) : Store unit :=
  modify (fun db =>
    set_schedules
      (map (fun s => if schedule_id s =? sid then with_available_seats n s
                     else s) (schedules db)) db).

Definition with_status (st : BookingStatus) (b : Booking) : Booking :=
  mkBooking (booking_id b) (b_user_id b) (b_schedule_id b) (seat_number b)
            st (booking_time b).

(** [update({"status": "cancelled"}).eq('booking_id', bid)] *)
Definition update_booking_status (bid : Z) (st : BookingStatus) : Store unit :=
  modify (fun db =>
    set_bookings
      (map (fun b => if booking_id b =? bid then with_status st b else b)
           (bookings db)) db).

(** [delete().eq('schedule_id', sid)] on [schedules]. *)
Definition delete_schedule (sid : Z) : Store unit :=
  modify (fun db =>
    set_schedules
      (filter (fun s => negb (schedule_id s =? sid)) (schedules db)) db).

(** [update(update_data).eq('schedule_id', sid)] of [edit_schedule]. *)
Definition update_schedule (sid bid : Z) (d t : string) (seats admin : Z)
  : Store unit :=
  modify (fun db =>
    set_schedules
      (map (fun s => if schedule_id s =? sid
                     then mkSchedule (schedule_id s) bid d t seats
                                     (sched_status s) (created_by_admin s)
                                     (Some admin)
                     else s) (schedules db)) db).

(** ** Handlers (POST bodies of the form routes, GET of the others) *)

Record RegisterForm : Type := mkRegisterForm {
  f_student_id : string;
  f_name : string;
  f_email : string;
  f_phone : string;
  f_password : string;
  f_year : Z
}.

Definition nonempty (s : string) : bool := negb (String.eqb s "").

(** [register], lines 108-179.  [generate_password_hash] is werkzeug's. *)
Definition register (generate_password_hash : string -> string)
  (form : RegisterForm) : DB -> DB * Response :=
  let student_id := Py.strip (f_student_id form) in
  let name := f_name form in
  let email := f_email form in
  let phone := f_phone form in
  let password := f_password form in
  let year := f_year form in
  if negb (nonempty student_id && nonempty name && negb (year =? 0)
           && nonempty email && nonempty phone && nonempty password)
  then fun db => (db, respond RenderRegister AllFieldsRequired)
  else if negb (Py.contains "@student.gitam.edu" email)
  then fun db => (db, respond RenderRegister UseCollegeMail)
  else if negb (Py.len phone =? 10) || negb (Py.str_isdigit phone)
  then fun db => (db, respond RenderRegister InvalidPhone)
  else if negb (password_ok password)
  then fun db => (db, respond RenderRegister WeakPassword)
  else if negb (valid_student_id year student_id)
  then fun db => (db, respond RenderRegister InvalidStudentId)
  else
    let password_hash := generate_password_hash password in
    guarded
      (existing <- gets (fun db =>
          filter (fun u => String.eqb (u_student_id u) student_id
                           || String.eqb (u_email u) email)
                 (users db)) ;;
       if negb (is_empty existing)
       then ret (respond RenderRegister AlreadyRegistered)
       else
         insert_user (fun uid =>
           mkUser uid student_id year name email phone password_hash false) ;;;
         ret (respond (Redirect ep_login) RegistrationSuccessful))
      (respond RenderRegister ErrorFlash).

(** [range(1, n + 1)] *)
Definition range1 (n : Z) : list Z :=
  map Z.of_nat (seq 1 (Z.to_nat n)).

Definition mem (x : Z) (l : list Z) : bool := existsb (Z.eqb x) l.

(** [book_seat], lines 418-472. *)
Definition book_seat (sess : Session) (sid : Z) : DB -> DB * Response :=
  match s_user_id sess with
  | None => fun db => (db, mkResponse (Redirect ep_login) [])
  | Some uid =>
    guarded
      (existing <- gets (confirmed_of_user uid sid) ;;
       if negb (is_empty existing)
       then ret (respond (Redirect ep_dashboard) AlreadyBooked)
       else
         schedule_result <- gets (schedules_by_id sid) ;;
         match schedule_result with
         | [] => ret (respond (Redirect ep_dashboard) NoSeatsAvailable)
         | schedule_raw :: _ =>
           if available_seats schedule_raw <=? 0
           then ret (respond (Redirect ep_dashboard) NoSeatsAvailable)
           else
             obus <- gets (fun db => bus_of db schedule_raw) ;;
             bus <- subscript obus ;;
             oroute <- gets (fun db => route_of db bus) ;;
             route <- subscript oroute ;;
             booked_result <- gets (confirmed_on_schedule sid) ;;
             let booked_seat_numbers := map seat_number booked_result in
             let total_seats := capacity bus in
             let offered :=
               filter (fun i => negb (mem i booked_seat_numbers))
                      (range1 total_seats) in
             ret (mkResponse
                    (RenderBookSeat
                       (mkSeatPicker (schedule_id schedule_raw)
                          (bus_number bus) (capacity bus) (route_name route)
                          (available_seats schedule_raw) offered))
                    [])
         end)
      (respond (Redirect ep_dashboard) ErrorFlash)
  end.

(** [confirm_booking], lines 478-525.  [stamp] is the [booking_time] the
    store gives the new row. *)
Definition confirm_booking (sess : Session) (sid seat : Z) (stamp : datetime)
  : DB -> DB * Response :=
  match s_user_id sess with
  | None => fun db => (db, mkResponse (Redirect ep_login) [])
  | Some uid =>
    guarded
      (schedule_result <- gets (schedules_by_id sid) ;;
       match schedule_result with
       | [] => ret (respond (Redirect ep_dashboard) ScheduleNotFound)
       | schedule :: _ =>
         obus <- gets (fun db => bus_of db schedule) ;;
         bus <- subscript obus ;;
         let bus_capacity := capacity bus in
         if (seat <? 1) || (seat >? bus_capacity)
         then ret (respond (Redirect (ep_book_seat sid))
                           (InvalidSeatNumber bus_capacity))
         else
           existing_seat <- gets (confirmed_on_seat sid seat) ;;
           if negb (is_empty existing_seat)
              || (available_seats schedule <=? 0)
           then ret (respond (Redirect ep_dashboard) SeatNoLongerAvailable)
           else
             insert_booking (fun bid =>
               mkBooking bid uid sid seat confirmed stamp) ;;;
             let new_available := available_seats schedule - 1 in
             update_available_seats sid new_available ;;;
             ret (respond (Redirect ep_dashboard) BookingConfirmed)
       end)
      (respond (Redirect ep_dashboard) ErrorFlash)
  end.

(** [cancel_booking], lines 531-565.  [now] is [datetime.now()], naive. *)
Definition cancel_booking (sess : Session) (bid : Z) (now : Z)
  : DB -> DB * Response :=
  match s_user_id sess with
  | None => fun db => (db, mkResponse (Redirect ep_login) [])
  | Some uid =>
    guarded
      (booking_result <- gets (fun db =>
          filter (fun b => (booking_id b =? bid) && (b_user_id b =? uid))
                 (bookings db)) ;;
       match booking_result with
       | [] => ret (respond (Redirect ep_dashboard) BookingNotFound)
       | booking :: _ =>
         elapsed <- subscript (datetime_sub (Naive now) (booking_time booking)) ;;
         if elapsed <? hold_period
         then ret (respond (Redirect ep_dashboard) CannotCancelYet)
         else
           update_booking_status bid cancelled ;;;
           found <- gets (schedules_by_id (b_schedule_id booking)) ;;
           schedule <- subscript (head found) ;;
           let new_available := available_seats schedule + 1 in
           update_available_seats (b_schedule_id booking) new_available ;;;
           ret (respond (Redirect ep_dashboard) BookingCancelled)
       end)
      (respond (Redirect ep_dashboard) ErrorFlash)
  end.

(** [create_slot], POST, lines 606-654. *)
Definition create_slot (sess : Session) (bus_no dep_date dep_time : string)
  (total_seats : Z) : DB -> DB * Response :=
  if negb (s_is_admin sess)
  then fun db => (db, respond (Redirect ep_admin_login) UnauthorizedAccess)
  else
    guarded
      (bus_result <- gets (buses_by_number bus_no) ;;
       match bus_result with
       | [] => ret (respond RenderCreateSchedule BusNotFound)
       | bus :: _ =>
         if total_seats >? capacity bus
         then ret (respond RenderCreateSchedule
                           (SeatsExceedCapacity (capacity bus)))
         else
           admin <- subscript (s_admin_id sess) ;;
           row <- insert_schedule (fun sid =>
             mkSchedule sid (bus_id bus) dep_date dep_time total_seats
                        "active" (Some admin) None) ;;
           insert_activity (mkActivity admin act_create (schedule_id row)) ;;;
           ret (respond (Redirect ep_admin_panel) ScheduleCreated)
       end)
      (respond RenderCreateSchedule ErrorFlash).

(** [cancel_schedule], lines 694-705. *)
Definition cancel_schedule (sess : Session) (sid : Z) : DB -> DB * Response :=
  if negb (s_is_admin sess)
  then fun db => (db, respond (Redirect ep_admin_login) UnauthorizedAccess)
  else
    guarded
      (delete_schedule sid ;;;
       ret (respond (Redirect ep_manage_buses) ScheduleCancelled))
      (respond (Redirect ep_manage_buses) ErrorFlash).

(** The GET part of [edit_schedule], lines 757-777; [earlier] are the
    messages already flashed by the POST part. *)
Definition edit_schedule_form (earlier : list Flash) (sid : Z)
  : DB -> DB * Response :=
  guarded
    (schedule_result <- gets (schedules_by_id sid) ;;
     match schedule_result with
     | [] => ret (mkResponse (Redirect ep_manage_buses)
                             (earlier ++ [ScheduleNotFound]))
     | s :: _ =>
       obus <- gets (fun db => bus_of db s) ;;
       bus <- subscript obus ;;
       oroute <- gets (fun db => route_of db bus) ;;
       route <- subscript oroute ;;
       ret (mkResponse
              (RenderEditSchedule
                 (mkEditForm (schedule_id s) (bus_number bus)
                    (route_name route)
                    (departure_date s ++ "T" ++ departure_time s)
                    (available_seats s)))
              earlier)
     end)
    (mkResponse (Redirect ep_manage_buses) (earlier ++ [ErrorFlash])).

(** The POST part of [edit_schedule], lines 716-752; an exception leaves
    the [try] and the handler goes on with the GET part. *)
Definition edit_schedule_post (sess : Session) (sid : Z) (bus_no : string)
  (departure_datetime : string) (total_seats : Z) : Store Response :=
  bus_result <- gets (buses_by_number bus_no) ;;
  match bus_result with
  | [] => ret (respond (Redirect ep_manage_buses) BusNotFound)
  | bus :: _ =>
    parts <- subscript (Py.split_once "T" departure_datetime) ;;
    admin <- subscript (s_admin_id sess) ;;
    update_schedule sid (bus_id bus) (fst parts) (snd parts) total_seats admin ;;;
    insert_activity (mkActivity admin act_update sid) ;;;
    ret (respond (Redirect ep_admin_panel) ScheduleUpdated)
  end.

Definition edit_schedule (sess : Session) (sid : Z) (bus_no : string)
  (departure_datetime : string) (total_seats : Z) : DB -> DB * Response :=
  if negb (s_is_admin sess)
  then fun db => (db, respond (Redirect ep_admin_login) UnauthorizedAccess)
  else fun db =>
    match edit_schedule_post sess sid bus_no departure_datetime total_seats db with
    | (db', Some r) => (db', r)
    | (db', None) => edit_schedule_form [ErrorFlash] sid db'
    end.

(** [view_ticket], lines 822-858. *)
Definition view_ticket (sess : Session) (bid : Z) : DB -> DB * Response :=
  match s_user_id sess with
  | None => fun db => (db, mkResponse (Redirect ep_login) [])
  | Some uid =>
    guarded
      (booking_result <- gets (fun db =>
          filter (fun b => (booking_id b =? bid) && (b_user_id b =? uid)
                           && status_eqb (status b) confirmed)
                 (bookings db)) ;;
       match booking_result with
       | [] => ret (respond (Redirect ep_dashboard) BookingNotFound)
       | booking :: _ =>
         ouser <- gets (fun db => user_of db booking) ;;
         user <- subscript ouser ;;
         oschedule <- gets (fun db => schedule_of db booking) ;;
         schedule <- subscript oschedule ;;
         obus <- gets (fun db => bus_of db schedule) ;;
         bus <- subscript obus ;;
         oroute <- gets (fun db => route_of db bus) ;;
         route <- subscript oroute ;;
         ret (mkResponse
                (RenderTicket
                   (mkTicket (booking_id booking) (u_student_id user)
                      (u_name user) (u_email user) (u_phone user)
                      (seat_number booking) (bus_number bus)
                      (route_name route) (start_point route)
                      (end_point route) (departure_date schedule)
                      (departure_time schedule) (booking_time booking)))
                [])
       end)
      (respond (Redirect ep_dashboard) ErrorFlash)
  end.

(** ** Sequential operation *)

Inductive Request : Type :=
| Register (generate_password_hash : string -> string) (form : RegisterForm)
| BookSeat (sess : Session) (sid : Z)
| ConfirmBooking (sess : Session) (sid seat : Z) (stamp : datetime)
| CancelBooking (sess : Session) (bid : Z) (now : Z)
| CreateSlot (sess : Session) (bus_no dep_date dep_time : string) (total_seats : Z)
| CancelSchedule (sess : Session) (sid : Z)
| EditSchedule (sess : Session) (sid : Z) (bus_no departure_datetime : string)
               (total_seats : Z)
| ViewTicket (sess : Session) (bid : Z).

Definition handle (r : Request) : DB -> DB * Response :=
  match r with
  | Register h form => register h form
  | BookSeat sess sid => book_seat sess sid
  | ConfirmBooking sess sid seat stamp => confirm_booking sess sid seat stamp
  | CancelBooking sess bid now => cancel_booking sess bid now
  | CreateSlot sess b d t n => create_slot sess b d t n
  | CancelSchedule sess sid => cancel_schedule sess sid
  | EditSchedule sess sid b d n => edit_schedule sess sid b d n
  | ViewTicket sess bid => view_ticket sess bid
  end.

(** Requests served one after the other; the responses in order. *)
Fixpoint serve (rs : list Request) (db : DB) : DB * list Response :=
  match rs with
  | [] => (db, [])
  | r :: rest =>
    let (db1, resp) := handle r db in
    let (db2, resps) := serve rest db1 in
    (db2, resp :: resps)
  end.

(** ** Properties of a store *)

(** The counter of every schedule lies in [[0, capacity]] of its bus. *)
Definition seats_in_range (db : DB) : bool :=
  forallb (fun s =>
    match bus_of db s with
    | Some bus => (0 <=? available_seats s) && (available_seats s <=? capacity bus)
    | None => false
    end) (schedules db).

(** The counter of every schedule is the capacity of its bus minus the
    number of confirmed bookings on it. *)
Definition counters_consistent (db : DB) : bool :=
  forallb (fun s =>
    match bus_of db s with
    | Some bus =>
        available_seats s =?
        capacity bus - Z.of_nat (List.length (confirmed_on_schedule (schedule_id s) db))
    | None => false
    end) (schedules db).

(** A confirm-booking response that reports success. *)
Definition booking_accepted (r : Response) : Prop :=
  r = respond (Redirect ep_dashboard) BookingConfirmed.

(** A cancel-booking response that reports success. *)
Definition cancel_accepted (r : Response) : Prop :=
  r = respond (Redirect ep_dashboard) BookingCancelled.

(** A create-slot response sent by one of the two validation branches. *)
Definition slot_rejected (r : Response) : Prop :=
  r = respond RenderCreateSchedule BusNotFound
  \/ exists c, r = respond RenderCreateSchedule (SeatsExceedCapacity c).


(** ** A small store to run the handlers on *)

Definition route1 : Route := mkRoute 1 "GITAM to Miyapur" "GITAM CAMPUS" "Miyapur".
Definition bus1 : Bus := mkBus 1 "BUS001" 2 1.
Definition sched1 : Schedule :=
  mkSchedule 1 1 "2025-01-02" "08:30" 2 "active" (Some 1) None.
Definition alice : User :=
  mkUser 1 "2025000001" 1 "Alice" "alice@student.gitam.edu" "9000000001" "h1" false.
Definition bob : User :=
  mkUser 2 "2025000002" 1 "Bob" "bob@student.gitam.edu" "9000000002" "h2" false.

Definition db0 : DB :=
  mkDB [alice; bob] [route1] [bus1] [sched1] [] [] 3 2 1.

Definition as_alice : Session := mkSession (Some 1) None false.
Definition as_bob : Session := mkSession (Some 2) None false.
Definition as_admin : Session := mkSession None (Some 1) true.

(** One second, in microseconds. *)
Definition sec : Z := 1000000.

(** A registration whose email holds the campus domain in the middle. *)
Definition hostile_form : RegisterForm :=
  mkRegisterForm "2025123456" "Mallory" "m@student.gitam.edu.example.org"
                 "9876543210" "Abc123@5" 1.

(** Alice books seat 1 and cancels it after the hold period. *)
Definition booked_then_cancelled : list Request :=
  [ConfirmBooking as_alice 1 1 (Naive 0);
   CancelBooking as_alice 1 (130 * sec)].

Definition db_cancelled : DB := fst (serve booked_then_cancelled db0).

(** Alice opens the seat picker, confirms seat 1, then confirms seat 2. *)
Definition two_seats : list Request :=
  [BookSeat as_alice 1;
   ConfirmBooking as_alice 1 1 (Naive 0);
   ConfirmBooking as_alice 1 2 (Naive sec)].

(** A bus with a single seat and one schedule on it. *)
Definition db_single : DB :=
  mkDB [alice; bob] [route1] [mkBus 1 "BUS001" 1 1]
       [mkSchedule 1 1 "2025-01-02" "08:30" 1 "active" (Some 1) None]
       [] [] 3 2 1.

(** Alice holds seat 1 of schedule 1; the admin then deletes the schedule. *)
Definition db_orphan : DB :=
  fst (serve [ConfirmBooking as_alice 1 1 (Naive 0);
              CancelSchedule as_admin 1] db0).

(** ** Further properties of a store *)

(** No seat of a schedule is held by two confirmed bookings. *)
Definition seats_unique (db : DB) : Prop :=
  forall sid seat, (List.length (confirmed_on_seat sid seat db) <= 1)%nat.

(** The generated keys of a table are distinct and below its sequence. *)
Definition keys_below {A} (key : A -> Z) (next : Z) (rows : list A) : Prop :=
  NoDup (map key rows) /\ Forall (fun r => key r < next) rows.

(** Keys are sound in every table, and a booking names a schedule id that
    the store has issued. *)
Definition keys_ok (db : DB) : Prop :=
  keys_below user_id (next_user_id db) (users db)
  /\ keys_below schedule_id (next_schedule_id db) (schedules db)
  /\ keys_below booking_id (next_booking_id db) (bookings db)
  /\ Forall (fun b => b_schedule_id b < next_schedule_id db) (bookings db).

(** The session a request comes with ([register] reads none). *)
Definition session_of_request (r : Request) : option Session :=
  match r with
  | Register _ _ => None
  | BookSeat sess _ => Some sess
  | ConfirmBooking sess _ _ _ => Some sess
  | CancelBooking sess _ _ => Some sess
  | CreateSlot sess _ _ _ _ => Some sess
  | CancelSchedule sess _ => Some sess
  | EditSchedule sess _ _ _ _ => Some sess
  | ViewTicket sess _ => Some sess
  end.

(** A session with neither a student nor the admin flag in it. *)
Definition anonymous (sess : Session) : Prop :=
  s_user_id sess = None /\ s_is_admin sess = false.

(** The store after a granted [confirm_booking]. *)
Definition after_confirm (uid sid seat : Z) (stamp : datetime)
  (schedule : Schedule) (db : DB) : DB :=
  mkDB (users db) (routes db) (buses db)
       (map (fun s => if schedule_id s =? sid
                      then with_available_seats (available_seats schedule - 1) s
                      else s) (schedules db))
       (bookings db ++ [mkBooking (next_booking_id db) uid sid seat confirmed stamp])
       (admin_activity_log db) (next_user_id db) (next_schedule_id db)
       (next_booking_id db + 1).

(** The store after a granted [cancel_booking]. *)
Definition after_cancel (bid : Z) (booking : Booking) (schedule : Schedule)
  (db : DB) : DB :=
  mkDB (users db) (routes db) (buses db)
       (map (fun s => if schedule_id s =? b_schedule_id booking
                      then with_available_seats (available_seats schedule + 1) s
                      else s) (schedules db))
       (map (fun b => if booking_id b =? bid then with_status cancelled b else b)
            (bookings db))
       (admin_activity_log db) (next_user_id db) (next_schedule_id db)
       (next_booking_id db).

(** The store after a granted [register]. *)
Definition after_register (h : string -> string) (form : RegisterForm)
  (db : DB) : DB :=
  set_users
    (users db
     ++ [mkUser (next_user_id db) (Py.strip (f_student_id form)) (f_year form)
                (f_name form) (f_email form) (f_phone form)
                (h (f_password form)) false])
    (next_user_id db + 1) db.

(** Every test of [register] before it reads the store. *)
Definition register_form_ok (form : RegisterForm) : bool :=
  nonempty (Py.strip (f_student_id form)) && nonempty (f_name form)
  && negb (f_year form =? 0) && nonempty (f_email form)
  && nonempty (f_phone form) && nonempty (f_password form)
  && Py.contains "@student.gitam.edu" (f_email form)
  && (Py.len (f_phone form) =? 10) && Py.str_isdigit (f_phone form)
  && password_ok (f_password form)
  && valid_student_id (f_year form) (Py.strip (f_student_id form)).

(** The users a registration collides with. *)
Definition same_identity (form : RegisterForm) (db : DB) : list User :=
  filter (fun u => String.eqb (u_student_id u) (Py.strip (f_student_id form))
                   || String.eqb (u_email u) (f_email form)) (users db).

(** The store after a granted [create_slot]. *)
Definition after_create (admin : Z) (bus : Bus) (dep_date dep_time : string)
  (total_seats : Z) (db : DB) : DB :=
  mkDB (users db) (routes db) (buses db)
       (schedules db
        ++ [mkSchedule (next_schedule_id db) (bus_id bus) dep_date dep_time
                       total_seats "active" (Some admin) None])
       (bookings db)
       (admin_activity_log db
        ++ [mkActivity admin act_create (next_schedule_id db)])
       (next_user_id db) (next_schedule_id db + 1) (next_booking_id db).

(** The store after a granted [edit_schedule]. *)
Definition after_edit (admin sid : Z) (bus : Bus) (dep_date dep_time : string)
  (total_seats : Z) (db : DB) : DB :=
  mkDB (users db) (routes db) (buses db)
       (map (fun s => if schedule_id s =? sid
                      then mkSchedule (schedule_id s) (bus_id bus) dep_date
                                      dep_time total_seats (sched_status s)
                                      (created_by_admin s) (Some admin)
                      else s) (schedules db))
       (bookings db)
       (admin_activity_log db ++ [mkActivity admin act_update sid])
       (next_user_id db) (next_schedule_id db) (next_booking_id db).

(** The store after a granted [cancel_schedule]. *)
Definition after_delete (sid : Z) (db : DB) : DB :=
  set_schedules
    (filter (fun s => negb (schedule_id s =? sid)) (schedules db)) db.

(** A user row that passed the tests of [register]. *)
Definition user_ok (u : User) : Prop :=
  Py.contains "@student.gitam.edu" (u_email u) = true
  /\ Py.len (u_phone u) = 10
  /\ Py.str_isdigit (u_phone u) = true
  /\ valid_student_id (u_year u) (u_student_id u) = true
  /\ u_is_admin u = false.

(** Every user row is sound and no student id or email occurs twice. *)
Definition users_ok (db : DB) : Prop :=
  Forall user_ok (users db)
  /\ NoDup (map u_student_id (users db))
  /\ NoDup (map u_email (users db)).

(** ** The admin listing of bookings ([all_bookings], lines 783-813) *)

(** One flattened row of the listing. *)
Record BookingLine : Type := mkBookingLine {
  l_booking_id : Z;
  l_student_id : string;
  l_name : string;
  l_departure_date : string;
  l_departure_time : string;
  l_bus_number : string;
  l_route_name : string;
  l_seat_number : Z
}.

Inductive Listing : Type :=
| ListingDenied
| ListingPage (rows : list BookingLine) (messages : list Flash).

(** The dictionary built in the loop body; [None] when an embedded row is
    missing and the subscript raises. *)
Definition line_of (db : DB) (b : Booking) : option BookingLine :=
  match user_of db b with
  | None => None
  | Some user =>
    match schedule_of db b with
    | None => None
    | Some schedule =>
      match bus_of db schedule with
      | None => None
      | Some bus =>
        match route_of db bus with
        | None => None
        | Some route =>
          Some (mkBookingLine (booking_id b) (u_student_id user) (u_name user)
                              (departure_date schedule) (departure_time schedule)
                              (bus_number bus) (route_name route)
                              (seat_number b))
        end
      end
    end
  end.

(** The [for] loop: the lines in order, or [None] at the first exception. *)
Fixpoint lines_of (db : DB) (bs : list Booking) : option (list BookingLine) :=
  match bs with
  | [] => Some []
  | b :: rest =>
    match line_of db b with
    | None => None
    | Some line =>
      match lines_of db rest with
      | None => None
      | Some lines => Some (line :: lines)
      end
    end
  end.

(** [(d1, t1) < (d2, t2)] on tuples of strings: the first components decide
    unless they are equal. *)
Definition tuple_lt (a b : string * string) : bool :=
  if String.eqb (fst a) (fst b) then String.ltb (snd a) (snd b)
  else String.ltb (fst a) (fst b).

(** The sort key [lambda x: (x['departure_date'], x['departure_time'])]. *)
Definition line_key (l : BookingLine) : string * string :=
  (l_departure_date l, l_departure_time l).

(** [list.sort(key=...)] is stable and compares keys with [<] only; a
    stable insertion sort yields the same list. *)
Fixpoint insert_line (x : BookingLine) (l : list BookingLine)
  : list BookingLine :=
  match l with
  | [] => [x]
  | y :: rest =>
    if tuple_lt (line_key x) (line_key y) then x :: l
    else y :: insert_line x rest
  end.

Definition sort_lines (l : list BookingLine) : list BookingLine :=
  fold_left (fun acc x => insert_line x acc) l [].

(** [.eq('status', 'confirmed')] on [bookings]. *)
Definition confirmed_bookings (db : DB) : list Booking :=
  filter (fun b => status_eqb (status b) confirmed) (bookings db).

Definition all_bookings (sess : Session) (db : DB) : Listing :=
  if negb (s_is_admin sess) then ListingDenied
  else
    match lines_of db (confirmed_bookings db) with
    | Some lines => ListingPage (sort_lines lines) []
    | None => ListingPage [] [ErrorFlash]
    end.

(** [a <= b] on sort keys, as [not (b < a)]. *)
Definition line_le (a b : BookingLine) : Prop :=
  tuple_lt (line_key b) (line_key a) = false.

(** ** Sessions: [index], [login], [logout] (lines 96-101, 249-304, 863-866) *)

(** The keys of the Flask session.  ['is_admin'] is only ever stored as
    [True], so it is a flag here. *)
Record Cookie : Type := mkCookie {
  c_user_id : option Z;
  c_student_id : option string;
  c_year : option Z;
  c_name : option string;
  c_captcha_solution : option Z;
  c_captcha_question : option string;
  c_admin_id : option Z;
  c_is_admin : bool;
  c_admin_name : option string
}.

(** [session.clear()] *)
Definition empty_cookie : Cookie :=
  mkCookie None None None None None None None false None.

(** What the booking handlers read of the session. *)
Definition session_of (c : Cookie) : Session :=
  mkSession (c_user_id c) (c_admin_id c) (c_is_admin c).

Inductive AuthFlash : Type :=
| IncorrectCaptcha
| InvalidIdFormat
| LoginSuccessful
| InvalidCredentials
| AdminLoginSuccessful
| WeakAdminPassword
| AdminExists
| AdminRegistered
| LoggedOut.

Inductive AuthBody : Type :=
| GoTo (target : Endpoint)
| GoToIndex
| RenderIndex
| RenderLogin
| RenderAdminLogin
| RenderAdminRegister.

Record AuthResponse : Type := mkAuthResponse {
  a_body : AuthBody;
  a_flashes : list AuthFlash
}.

(** [str(n)] for an integer. *)
Definition str_of_int (n : Z) : string := NilZero.string_of_int (Z.to_int n).

(** [index] *)
Definition index (c : Cookie) : AuthResponse :=
  match c_user_id c with
  | Some _ => mkAuthResponse (GoTo ep_dashboard) []
  | None =>
    match c_admin_id c with
    | Some _ => mkAuthResponse (GoTo ep_admin_panel) []
    | None => mkAuthResponse RenderIndex []
    end
  end.

(** The GET branch of [login] and of [admin_login]: a new challenge from
    the two numbers drawn by [random.randint(1, 10)]. *)
Definition new_captcha (num1 num2 : Z) (c : Cookie) : Cookie :=
  mkCookie (c_user_id c) (c_student_id c) (c_year c) (c_name c)
           (Some (num1 + num2))
           (Some (str_of_int num1 ++ " + " ++ str_of_int num2))
           (c_admin_id c) (c_is_admin c) (c_admin_name c).

(** ['captcha_solution' in session and str(session['captcha_solution'])
    == captcha_answer] *)
Definition captcha_ok (c : Cookie) (answer : string) : bool :=
  match c_captcha_solution c with
  | None => false
  | Some n => String.eqb (str_of_int n) answer
  end.

Record LoginForm : Type := mkLoginForm {
  lf_student_id : string;
  lf_password : string;
  lf_year : Z;
  lf_captcha_answer : string
}.

(** The session after a granted student login. *)
Definition logged_in (user : User) (c : Cookie) : Cookie :=
  mkCookie (Some (user_id user)) (Some (u_student_id user))
           (Some (u_year user)) (Some (u_name user))
           None (c_captcha_question c)
           (c_admin_id c) (c_is_admin c) (c_admin_name c).

(** The POST branch of [login].  [check_password_hash] is werkzeug's. *)
Definition login (check_password_hash : string -> string -> bool)
  (form : LoginForm) (c : Cookie) (db : DB) : Cookie * AuthResponse :=
  let student_id := Py.strip (lf_student_id form) in
  if negb (captcha_ok c (lf_captcha_answer form))
  then (c, mkAuthResponse RenderLogin [IncorrectCaptcha])
  else if negb (valid_student_id (lf_year form) student_id)
  then (c, mkAuthResponse RenderLogin [InvalidIdFormat])
  else
    match filter (fun u => String.eqb (u_student_id u) student_id) (users db) with
    | user :: _ =>
      if check_password_hash (u_password_hash user) (lf_password form)
      then (logged_in user c, mkAuthResponse (GoTo ep_dashboard) [LoginSuccessful])
      else (c, mkAuthResponse RenderLogin [InvalidCredentials])
    | [] => (c, mkAuthResponse RenderLogin [InvalidCredentials])
    end.

(** [logout] *)
Definition logout (c : Cookie) : Cookie * AuthResponse :=
  (empty_cookie, mkAuthResponse GoToIndex [LoggedOut]).

(** ** Admin accounts: [admin_reg], [admin_login] (lines 187-243, 310-361) *)

Record Admin : Type := mkAdmin {
  admin_id : Z;
  admin_username : string;
  admin_name : string;
  admin_email : string;
  admin_phone : string;
  admin_password_hash : string
}.

Record Permissions : Type := mkPermissions {
  perm_admin_id : Z;
  can_create_schedules : bool;
  can_edit_schedules : bool;
  can_delete_schedules : bool;
  can_manage_buses : bool;
  can_manage_routes : bool;
  can_view_all_bookings : bool;
  can_cancel_bookings : bool;
  can_manage_admins : bool
}.

Record AdminSessionRow : Type := mkAdminSessionRow {
  ses_admin_id : Z;
  ses_is_active : bool
}.

(** The admin tables.  [login_log] holds the admin ids of the rows that
    [admin_login] adds to [admin_activity_log]; they carry no record id and
    are kept apart from the schedule rows of that table. *)
Record AdminTables : Type := mkAdminTables {
  admins : list Admin;
  admin_permissions : list Permissions;
  admin_sessions : list AdminSessionRow;
  login_log : list Z;
  next_admin_id : Z
}.

Record AdminForm : Type := mkAdminForm {
  af_admin_id : string;
  af_admin_name : string;
  af_admin_password : string;
  af_admin_mail : string;
  af_admin_phone : string
}.

(** [permissions_data] of [admin_reg]. *)
Definition default_permissions (new_admin_id : Z) : Permissions :=
  mkPermissions new_admin_id true true false true true true false false.

(** The admins a registration collides with. *)
Definition same_admin (form : AdminForm) (t : AdminTables) : list Admin :=
  filter (fun a => String.eqb (admin_username a) (af_admin_id form)
                   || String.eqb (admin_email a) (af_admin_mail form))
         (admins t).

(** The POST branch of [admin_reg]. *)
Definition admin_reg (generate_password_hash : string -> string)
  (form : AdminForm) (t : AdminTables) : AdminTables * AuthResponse :=
  if negb (password_ok (af_admin_password form))
  then (t, mkAuthResponse RenderAdminRegister [WeakAdminPassword])
  else if negb (is_empty (same_admin form t))
  then (t, mkAuthResponse RenderAdminRegister [AdminExists])
  else
    (mkAdminTables
       (admins t
        ++ [mkAdmin (next_admin_id t) (af_admin_id form) (af_admin_name form)
                    (af_admin_mail form) (af_admin_phone form)
                    (generate_password_hash (af_admin_password form))])
       (admin_permissions t ++ [default_permissions (next_admin_id t)])
       (admin_sessions t) (login_log t) (next_admin_id t + 1),
     mkAuthResponse (GoTo ep_admin_login) [AdminRegistered]).

(** The session after a granted admin login. *)
Definition admin_logged_in (a : Admin) (c : Cookie) : Cookie :=
  mkCookie (c_user_id c) (c_student_id c) (c_year c) (c_name c)
           None (c_captcha_question c)
           (Some (admin_id a)) true (Some (admin_name a)).

(** The POST branch of [admin_login]. *)
Definition admin_login (check_password_hash : string -> string -> bool)
  (username password captcha_answer : string) (c : Cookie) (t : AdminTables)
  : Cookie * AdminTables * AuthResponse :=
  if negb (captcha_ok c captcha_answer)
  then (c, t, mkAuthResponse RenderAdminLogin [IncorrectCaptcha])
  else
    match filter (fun a => String.eqb (admin_username a) username) (admins t) with
    | admin :: _ =>
      if check_password_hash (admin_password_hash admin) password
      then (admin_logged_in admin c,
            mkAdminTables (admins t) (admin_permissions t)
                          (admin_sessions t
                           ++ [mkAdminSessionRow (admin_id admin) true])
                          (login_log t ++ [admin_id admin]) (next_admin_id t),
            mkAuthResponse (GoTo ep_admin_panel) [AdminLoginSuccessful])
      else (c, t, mkAuthResponse RenderAdminLogin [InvalidCredentials])
    | [] => (c, t, mkAuthResponse RenderAdminLogin [InvalidCredentials])
    end.

(** ** Seeding ([init_db], lines 42-89)

    The keys of a new route and a new bus are the store's choice and are
    passed in.  The loop over [schedules] runs over the empty list.  The
    [duration] of the route is written but read nowhere and is not kept in
    [Route]. *)
Definition init_db (fresh_route_id fresh_bus_id : Z) (db : DB) : DB :=
  let existing_route :=
    filter (fun r => String.eqb (route_name r) "GITAM to Miyapur") (routes db) in
  let routes' :=
    match existing_route with
    | [] => (routes db ++ [mkRoute fresh_route_id "GITAM to Miyapur"
                                   "GITAM CAMPUS" "Miyapur"])%list
    | _ :: _ => routes db
    end in
  let route_id' :=
    match existing_route with
    | [] => fresh_route_id
    | r :: _ => route_id r
    end in
  let existing_bus :=
    filter (fun b => String.eqb (bus_number b) "BUS001") (buses db) in
  let buses' :=
    match existing_bus with
    | [] => (buses db ++ [mkBus fresh_bus_id "BUS001" 40 route_id'])%list
    | _ :: _ => buses db
    end in
  mkDB (users db) routes' buses' (schedules db) (bookings db)
       (admin_activity_log db) (next_user_id db) (next_schedule_id db)
       (next_booking_id db).


(** The routes guarded by [session.get('is_admin')]; the others that read
    the session are guarded by ['user_id' in session]. *)
Definition admin_route (r : Request) : bool :=
  match r with
  | CreateSlot _ _ _ _ _ | CancelSchedule _ _ | EditSchedule _ _ _ _ _ => true
  | _ => false
  end.

(** * Theorems *)

(** ** Strings *)

Lemma prefix_app (p s : string) :
  String.prefix p s = true <-> exists q, s = p ++ q.
Proof.
  revert s; induction p as [|c p IH]; intros s; simpl.
  - split; [exists s; reflexivity | destruct s; reflexivity].
  - destruct s as [|d s]; simpl.
    + split; [discriminate | intros [q Hq]; discriminate].
    + destruct (ascii_dec c d) as [->|Hne].
      * rewrite IH. split; intros [q Hq]; exists q; congruence.
      * split; [discriminate | intros [q Hq]; congruence].
Qed.

Lemma contains_spec (sub s : string) :
  Py.contains sub s = true <-> exists p q, s = p ++ sub ++ q.
Proof.
  induction s as [|c s IH]; cbn [Py.contains]; rewrite orb_true_iff, prefix_app.
  - split.
    + intros [[q Hq]|H]; [exists "", q; exact Hq | discriminate].
    + intros [p [q H]]. left. destruct p; [exists q; exact H | discriminate].
  - rewrite IH. split.
    + intros [[q Hq]|[p [q H]]].
      * exists "", q; exact Hq.
      * exists (String c p), q. simpl. now rewrite H.
    + intros [p [q H]]. destruct p as [|d p]; simpl in H.
      * left. exists q; exact H.
      * right. exists p, q. congruence.
Qed.

Lemma endswith_spec (s suf : string) :
  Py.endswith s suf = true <-> exists p, s = p ++ suf.
Proof.
  induction s as [|c s IH]; cbn [Py.endswith]; rewrite orb_true_iff, String.eqb_eq.
  - split.
    + intros [H|H]; [exists ""; exact H | discriminate].
    + intros [p H]. left. destruct p; [exact H | discriminate].
  - rewrite IH. split.
    + intros [H|[p H]]; [exists ""; exact H |].
      exists (String c p). simpl. now rewrite H.
    + intros [p H]. destruct p as [|d p]; simpl in H.
      * left; exact H.
      * right. exists p. congruence.
Qed.

Lemma any_spec (p : ascii -> bool) (s : string) :
  Py.any p s = true <-> exists c, In c (Py.chars s) /\ p c = true.
Proof. unfold Py.any. apply existsb_exists. Qed.

Lemma char_in_spec (s : string) (c : ascii) :
  Py.char_in s c = true <-> In c (Py.chars s).
Proof.
  unfold Py.char_in. rewrite existsb_exists. split.
  - intros [d [Hd He]]. apply Ascii.eqb_eq in He. now subst.
  - intros H. exists c. split; [exact H | apply Ascii.eqb_refl].
Qed.

(** ** Registration *)

(** C7: the password check of [register] accepts exactly the passwords of
    length at least 8 that hold an uppercase letter, a digit and one of the
    characters of ["@#$%&*!?"]; it rejects ["Abc12345"] and accepts
    ["Abc123@5"]. *)
Theorem password_ok_iff :
  (forall password,
      password_ok password = true <->
      8 <= Py.len password
      /\ (exists c, In c (Py.chars password) /\ Py.isupper c = true)
      /\ (exists c, In c (Py.chars password) /\ Py.isdigit c = true)
      /\ (exists c, In c (Py.chars password) /\ In c (Py.chars special_chars)))
  /\ password_ok "Abc12345" = false
  /\ password_ok "Abc123@5" = true.
Proof.
  split; [|split; reflexivity].
  intros password. unfold password_ok.
  rewrite !andb_true_iff, !any_spec, Z.leb_le.
  split.
  - intros [[[Hu Hd] [c [Hc Hs]]] Hl].
    repeat split; try assumption.
    exists c. split; [exact Hc | now apply char_in_spec].
  - intros [Hl [Hu [Hd [c [Hc Hs]]]]].
    repeat split; try assumption.
    exists c. split; [exact Hc | now apply char_in_spec].
Qed.

(** A password that fails the check stops the registration: nothing is
    written. *)
Lemma register_weak_password h form db :
  password_ok (f_password form) = false ->
  fst (register h form db) = db
  /\ body (snd (register h form db)) = RenderRegister.
Proof.
  intros Hpw. unfold register. rewrite Hpw. simpl.
  repeat match goal with
         | |- context [if ?b then _ else _] => destruct b; simpl; auto
         end.
Qed.

(** C6: [register] tests that the campus domain occurs in the email, not
    that the email ends with it: an address that merely contains
    ["@student.gitam.edu"] is registered. *)
Theorem register_domain_not_suffix :
  forall h,
    Py.endswith (f_email hostile_form) "@student.gitam.edu" = false
    /\ register h hostile_form db0 =
       (set_users
          [alice; bob;
           mkUser 3 "2025123456" 1 "Mallory" "m@student.gitam.edu.example.org"
                  "9876543210" (h "Abc123@5") false] 4 db0,
        respond (Redirect ep_login) RegistrationSuccessful).
Proof. intros h. split; reflexivity. Qed.

(** What the email test of [register] decides: an email without the campus
    domain anywhere in it is rejected and nothing is written. *)
Lemma register_without_domain h form db :
  Py.contains "@student.gitam.edu" (f_email form) = false ->
  fst (register h form db) = db
  /\ body (snd (register h form db)) = RenderRegister.
Proof.
  intros He. unfold register. rewrite He. simpl.
  destruct (negb _); simpl; auto.
Qed.

(** The student-id rule: a ten-digit id with the prefix of another year is
    refused, an id of the year-4 pattern is accepted. *)
Example student_id_by_year :
  valid_student_id 1 "2024123456" = false
  /\ valid_student_id 2 "2024123456" = true
  /\ valid_student_id 4 "HU22CSEN0100123" = true
  /\ valid_student_id 4 "HU22csen0100123" = false.
Proof. repeat split; reflexivity. Qed.

(** ** Confirming a booking *)

Lemma schedules_by_id_set_seats sid n l :
  filter (fun s => schedule_id s =? sid)
         (map (fun s => if schedule_id s =? sid then with_available_seats n s
                        else s) l)
  = map (with_available_seats n) (filter (fun s => schedule_id s =? sid) l).
Proof.
  induction l as [|s l IH]; simpl; [reflexivity|].
  destruct (schedule_id s =? sid) eqn:E; simpl; rewrite ?E, IH; reflexivity.
Qed.


Lemma is_empty_nil {A} (l : list A) : is_empty l = true <-> l = [].
Proof. destruct l; simpl; split; congruence. Qed.



(** C5: when a confirmed booking already holds seat [seat] of schedule
    [sid], a confirm-booking request for it is rejected and the store (booking
    rows and counters alike) is left as it was. *)
Theorem confirm_booking_taken_seat :
  forall db sess sid seat stamp,
    confirmed_on_seat sid seat db <> [] ->
    fst (confirm_booking sess sid seat stamp db) = db
    /\ ~ booking_accepted (snd (confirm_booking sess sid seat stamp db))
    /\ ~ In BookingConfirmed
           (flashes (snd (confirm_booking sess sid seat stamp db))).
Proof.
  intros db sess sid seat stamp Htaken.
  unfold confirm_booking, booking_accepted.
  destruct (s_user_id sess) as [uid|]; cbn;
    [|split; [reflexivity | split; [discriminate | tauto]]].
  unfold guarded, bind, gets.
  destruct (schedules_by_id sid db) as [|schedule rest]; cbn;
    [split; [reflexivity | split; [discriminate | intuition discriminate]]|].
  destruct (bus_of db schedule) as [bus|]; cbn;
    [|split; [reflexivity | split; [discriminate | intuition discriminate]]].
  destruct ((seat <? 1) || (seat >? capacity bus)); cbn;
    [split; [reflexivity | split; [discriminate | intuition discriminate]]|].
  destruct (confirmed_on_seat sid seat db) as [|b bs]; [congruence|].
  cbn. split; [reflexivity | split; [discriminate | intuition discriminate]].
Qed.

Lemma confirm_booking_taken_seat_witness :
  let db := fst (confirm_booking as_alice 1 1 (Naive 0) db0) in
  confirmed_on_seat 1 1 db <> []
  /\ fst (confirm_booking as_bob 1 1 (Naive sec) db) = db.
Proof.
  cbv zeta.
  assert (H : confirmed_on_seat 1 1 (fst (confirm_booking as_alice 1 1 (Naive 0) db0))
              <> []) by (vm_compute; discriminate).
  split; [exact H|].
  exact (proj1 (confirm_booking_taken_seat _ as_bob 1 1 (Naive sec) H)).
Defined.

(** The example of the specification: a seat beyond the capacity is
    refused; seat 1 of a one-seat schedule is granted and empties the
    counter; the next attempt on that schedule is refused. *)
Example confirm_booking_one_seat :
  let r1 := confirm_booking as_alice 1 2 (Naive 0) db_single in
  let r2 := confirm_booking as_alice 1 1 (Naive 0) db_single in
  let r3 := confirm_booking as_bob 1 1 (Naive sec) (fst r2) in
  r1 = (db_single, respond (Redirect (ep_book_seat 1)) (InvalidSeatNumber 1))
  /\ snd r2 = respond (Redirect ep_dashboard) BookingConfirmed
  /\ map available_seats (schedules (fst r2)) = [0]
  /\ r3 = (fst r2, respond (Redirect ep_dashboard) SeatNoLongerAvailable).
Proof. cbv zeta. repeat split; vm_compute; reflexivity. Qed.

Lemma same_id_same_row (l : list Schedule) (a b : Schedule) :
  NoDup (map schedule_id l) -> In a l -> In b l ->
  schedule_id a = schedule_id b -> a = b.
Proof.
  induction l as [|x l IH]; simpl; [tauto|].
  intros Hnd Ha Hb Hid. inversion Hnd as [|? ? Hnotin Hnd']; subst.
  destruct Ha as [->|Ha], Hb as [->|Hb]; auto.
  - exfalso. apply Hnotin. rewrite Hid. now apply in_map.
  - exfalso. apply Hnotin. rewrite <- Hid. now apply in_map.
Qed.

(** With schedule ids being keys, [confirm_booking] keeps every counter
    within [[0, capacity]]. *)
Lemma confirm_booking_keeps_range sess sid seat stamp db :
  NoDup (map schedule_id (schedules db)) ->
  seats_in_range db = true ->
  seats_in_range (fst (confirm_booking sess sid seat stamp db)) = true.
Proof.
  intros Hkeys Hinv. unfold confirm_booking.
  destruct (s_user_id sess) as [uid|]; [|exact Hinv].
  unfold guarded, bind, gets.
  destruct (schedules_by_id sid db) as [|schedule rest] eqn:Hsel; [exact Hinv|].
  destruct (bus_of db schedule) as [bus|] eqn:Hbus; cbn; [|exact Hinv].
  destruct ((seat <? 1) || (seat >? capacity bus)); cbn; [exact Hinv|].
  destruct (negb (is_empty (confirmed_on_seat sid seat db))
            || (available_seats schedule <=? 0)) eqn:Hfree; cbn; [exact Hinv|].
  apply orb_false_iff in Hfree. destruct Hfree as [_ Hpos].
  apply Z.leb_gt in Hpos.
  assert (Hin : In schedule (schedules db) /\ schedule_id schedule = sid).
  { assert (H : In schedule (schedules_by_id sid db)) by (rewrite Hsel; now left).
    apply filter_In in H. rewrite Z.eqb_eq in H. exact H. }
  destruct Hin as [Hin Hid].
  unfold seats_in_range in *. rewrite forallb_forall in Hinv.
  rewrite forallb_forall. intros s' Hs'. cbn in Hs'.
  apply in_map_iff in Hs'. destruct Hs' as [s [<- Hs']].
  pose proof (Hinv s Hs') as Hs. unfold bus_of in *. cbn.
  destruct (schedule_id s =? sid) eqn:E; cbn; [|exact Hs].
  apply Z.eqb_eq in E.
  assert (s = schedule) as -> by
      (apply (same_id_same_row (schedules db)); auto; congruence).
  rewrite Hbus in *. apply andb_true_iff in Hs. rewrite !Z.leb_le in Hs.
  apply andb_true_iff. rewrite !Z.leb_le. lia.
Qed.

(** C4: [book_seat] refuses a student who already holds a confirmed booking
    on the schedule, but [confirm_booking] does not repeat that test: two
    confirm requests by one student for two seats of one schedule are both
    granted, and the student then holds two confirmed bookings on it. *)
Theorem two_confirmed_bookings_one_user :
  let db := fst (serve two_seats db0) in
  map flashes (snd (serve two_seats db0))
    = [[]; [BookingConfirmed]; [BookingConfirmed]]
  /\ confirmed_of_user 1 1 db
     = [mkBooking 1 1 1 1 confirmed (Naive 0);
        mkBooking 2 1 1 2 confirmed (Naive sec)]
  /\ snd (book_seat as_alice 1 db) = respond (Redirect ep_dashboard) AlreadyBooked.
Proof. cbv zeta. repeat split; vm_compute; reflexivity. Qed.

(** ** Cancelling a booking *)

(** What [cancel_booking] tests: a row with the id and the caller's user
    id, a naive timestamp at least the hold period old, and the schedule row
    present.  The status of the row is not among the tests. *)
Lemma cancel_booking_accepts_iff db sess uid bid now :
  s_user_id sess = Some uid ->
  cancel_accepted (snd (cancel_booking sess bid now db)) <->
  exists b t s,
    head (filter (fun b => (booking_id b =? bid) && (b_user_id b =? uid))
                 (bookings db)) = Some b
    /\ booking_time b = Naive t
    /\ hold_period <= now - t
    /\ head (schedules_by_id (b_schedule_id b) db) = Some s.
Proof.
  intros Hu. unfold cancel_booking, cancel_accepted. rewrite Hu.
  unfold guarded, bind, gets.
  destruct (filter _ (bookings db)) as [|b rest]; cbn -[Z.ltb Z.sub hold_period].
  { split; [discriminate | intros [b [t [s [H _]]]]; discriminate]. }
  destruct (booking_time b) as [t|t] eqn:Ht; cbn -[Z.ltb Z.sub hold_period].
  2:{ split; [discriminate|].
      intros [b' [t' [s [H [H' _]]]]]. simpl in H; injection H as <-. congruence. }
  destruct (now - t <? hold_period) eqn:Hel; cbn -[Z.ltb Z.sub hold_period].
  { apply Z.ltb_lt in Hel. split; [discriminate|].
    intros [b' [t' [s [H [H' [Hold _]]]]]]. simpl in H; injection H as <-.
    rewrite Ht in H'. injection H' as <-. lia. }
  apply Z.ltb_ge in Hel.
  unfold schedules_by_id at 1. cbn -[Z.ltb Z.sub hold_period].
  fold (schedules_by_id (b_schedule_id b) db).
  destruct (schedules_by_id (b_schedule_id b) db) as [|s ss] eqn:Hsel;
    cbn -[Z.ltb Z.sub hold_period]; unfold schedules_by_id in Hsel.
  { split; [discriminate|].
    intros [b' [t' [s [H [_ [_ Hs]]]]]]. injection H as <-.
    rewrite Hsel in Hs. discriminate. }
  split; [|reflexivity].
  intros _. exists b, t, s. rewrite Hsel. repeat split; assumption.
Qed.

(** C3: [cancel_booking] does not test that the booking is still confirmed:
    once Alice has booked and cancelled seat 1, a second cancel request for
    the same booking is granted again and raises the counter to 3 on a bus
    of 2 seats. *)
Theorem cancel_booking_twice :
  let r := cancel_booking as_alice 1 (200 * sec) db_cancelled in
  bookings db_cancelled = [mkBooking 1 1 1 1 cancelled (Naive 0)]
  /\ map available_seats (schedules db_cancelled) = [2]
  /\ cancel_accepted (snd r)
  /\ bookings (fst r) = bookings db_cancelled
  /\ map available_seats (schedules (fst r)) = [3]
  /\ map capacity (buses (fst r)) = [2].
Proof. cbv zeta. repeat split; vm_compute; reflexivity. Qed.

(** A cancel request inside the hold period is refused and writes nothing;
    after it, the request is granted and the counter goes up by one. *)
Example cancel_booking_hold_period :
  let db := fst (confirm_booking as_alice 1 1 (Naive 0) db0) in
  cancel_booking as_alice 1 (119 * sec) db
    = (db, respond (Redirect ep_dashboard) CannotCancelYet)
  /\ snd (cancel_booking as_alice 1 (120 * sec) db)
     = respond (Redirect ep_dashboard) BookingCancelled
  /\ map available_seats (schedules db) = [1]
  /\ map available_seats
         (schedules (fst (cancel_booking as_alice 1 (120 * sec) db))) = [2]
  /\ cancel_booking as_bob 1 (120 * sec) db
     = (db, respond (Redirect ep_dashboard) BookingNotFound).
Proof. cbv zeta. repeat split; vm_compute; reflexivity. Qed.

(** The two writes of [cancel_booking] are separate: when the schedule row
    is gone, the booking is marked cancelled before the lookup fails and
    the request ends in the error message. *)
Example cancel_booking_orphan :
  let r := cancel_booking as_alice 1 (200 * sec) db_orphan in
  map status (bookings db_orphan) = [confirmed]
  /\ snd r = respond (Redirect ep_dashboard) ErrorFlash
  /\ map status (bookings (fst r)) = [cancelled].
Proof. cbv zeta. repeat split; vm_compute; reflexivity. Qed.

(** A booking whose stored timestamp carries an offset cannot be cancelled:
    [datetime.now()] is naive and the subtraction raises. *)
Example cancel_booking_aware_timestamp :
  let db := fst (confirm_booking as_alice 1 1 (Aware 0) db0) in
  cancel_booking as_alice 1 (200 * sec) db
    = (db, respond (Redirect ep_dashboard) ErrorFlash).
Proof. cbv zeta. vm_compute. reflexivity. Qed.

(** ** The counter over sequences of requests *)

(** C2: the counter leaves [[0, capacity]] under sequential operation.
    From a store whose counters agree with its bookings, an edit of the
    schedule sets the counter to whatever the form says (3 on a bus of 2
    seats, or a negative number), a created schedule may start negative, and
    cancelling one booking twice counts the seat twice. *)
Theorem available_seats_leaves_range :
  counters_consistent db0 = true
  /\ seats_in_range db0 = true
  /\ (let db := fst (serve [EditSchedule as_admin 1 "BUS001" "2025-01-02T08:30" 3] db0) in
      map available_seats (schedules db) = [3]
      /\ map capacity (buses db) = [2]
      /\ seats_in_range db = false)
  /\ (let db := fst (serve [EditSchedule as_admin 1 "BUS001" "2025-01-02T08:30" (-1)] db0) in
      map available_seats (schedules db) = [-1]
      /\ seats_in_range db = false)
  /\ (let db := fst (serve [CreateSlot as_admin "BUS001" "2025-01-03" "08:30" (-5)] db0) in
      map available_seats (schedules db) = [2; -5]
      /\ seats_in_range db = false)
  /\ (let db := fst (serve (booked_then_cancelled
                              ++ [CancelBooking as_alice 1 (200 * sec)]) db0) in
      map available_seats (schedules db) = [3]
      /\ seats_in_range db = false).
Proof. cbv zeta. repeat split; vm_compute; reflexivity. Qed.

(** ** Schedules: deleting and creating *)

Lemma filter_twice {A} (p : A -> bool) (l : list A) :
  filter p (filter p l) = filter p l.
Proof.
  induction l as [|a l IH]; simpl; [reflexivity|].
  destruct (p a) eqn:E; simpl; rewrite ?E, IH; reflexivity.
Qed.

Lemma filter_complement {A} (p : A -> bool) (l : list A) :
  filter p (filter (fun a => negb (p a)) l) = [].
Proof.
  induction l as [|a l IH]; simpl; [reflexivity|].
  destruct (p a) eqn:E; simpl; rewrite ?E; exact IH.
Qed.

(** C8: [cancel_schedule] issues one write, the deletion of the schedule
    rows with the given id.  The booking rows (those of the deleted schedule
    included) stay as they were, and so do all other schedules and tables. *)
Theorem cancel_schedule_frame :
  forall sess sid db,
    let db' := fst (cancel_schedule sess sid db) in
    bookings db' = bookings db
    /\ confirmed_on_schedule sid db' = confirmed_on_schedule sid db
    /\ schedules db'
       = (if s_is_admin sess
          then filter (fun s => negb (schedule_id s =? sid)) (schedules db)
          else schedules db)
    /\ schedules_by_id sid db'
       = (if s_is_admin sess then [] else schedules_by_id sid db)
    /\ filter (fun s => negb (schedule_id s =? sid)) (schedules db')
       = filter (fun s => negb (schedule_id s =? sid)) (schedules db)
    /\ (users db', routes db', buses db', admin_activity_log db')
       = (users db, routes db, buses db, admin_activity_log db).
Proof.
  intros sess sid db. unfold cancel_schedule, schedules_by_id.
  destruct (s_is_admin sess); cbn; repeat split.
  - apply (filter_complement (fun s => schedule_id s =? sid)).
  - apply filter_twice.
Qed.

(** After the deletion the bookings of the schedule are still confirmed
    and point to a schedule that no longer exists. *)
Example cancel_schedule_leaves_bookings :
  bookings db_orphan = [mkBooking 1 1 1 1 confirmed (Naive 0)]
  /\ schedules db_orphan = [].
Proof. split; vm_compute; reflexivity. Qed.

(** C10: for an admin session, [create_slot] is stopped by its validation
    exactly when no bus has the given number or the seat count exceeds the
    capacity of the bus; nothing bounds the count from below, so a count of
    zero or less (on a bus of non-negative capacity) passes and the new
    schedule carries that count as its counter. *)
Theorem create_slot_spec :
  forall db sess admin bus_no dep_date dep_time total_seats,
    s_is_admin sess = true ->
    s_admin_id sess = Some admin ->
    let db' := fst (create_slot sess bus_no dep_date dep_time total_seats db) in
    let resp := snd (create_slot sess bus_no dep_date dep_time total_seats db) in
    (slot_rejected resp <->
       buses_by_number bus_no db = []
       \/ exists bus, head (buses_by_number bus_no db) = Some bus
                      /\ capacity bus < total_seats)
    /\ (slot_rejected resp -> db' = db)
    /\ (forall bus,
          head (buses_by_number bus_no db) = Some bus ->
          total_seats <= capacity bus ->
          resp = respond (Redirect ep_admin_panel) ScheduleCreated
          /\ schedules db'
             = (schedules db
                ++ [mkSchedule (next_schedule_id db) (bus_id bus) dep_date
                               dep_time total_seats "active" (Some admin) None])%list)
    /\ (forall bus,
          head (buses_by_number bus_no db) = Some bus ->
          0 <= capacity bus ->
          total_seats <= 0 ->
          ~ slot_rejected resp
          /\ exists row, schedules db' = (schedules db ++ [row])%list
                         /\ available_seats row = total_seats).
Proof.
  intros db sess admin bus_no dep_date dep_time total_seats Hadm Hid.
  unfold create_slot, slot_rejected. rewrite Hadm, Hid. cbn [negb].
  unfold guarded, bind, gets. cbv beta.
  destruct (buses_by_number bus_no db) as [|bus rest]; cbn.
  { split; [split; [now left | intros _; left; reflexivity]|].
    split; [reflexivity|]. split; intros bus Hb; discriminate. }
  destruct (total_seats >? capacity bus) eqn:Hcap; cbn.
  - apply Z.gtb_gt in Hcap.
    split.
    { split; [|intros _; right; eexists; reflexivity].
      intros _. right. exists bus. split; [reflexivity | lia]. }
    split; [reflexivity|].
    split; intros b Hb; injection Hb as <-; intros; lia.
  - rewrite Z.gtb_ltb, Z.ltb_ge in Hcap.
    split.
    { split.
      - intros [H|[c H]]; discriminate.
      - intros [H|[b [Hb Hlt]]]; [discriminate|].
        injection Hb as <-. lia. }
    split; [intros [H|[c H]]; discriminate|].
    split; intros b Hb; injection Hb as <-.
    + intros _. split; reflexivity.
    + intros _ _. split; [intros [H|[c H]]; discriminate|].
      eexists. split; reflexivity.
Qed.

Lemma create_slot_spec_witness :
  s_is_admin as_admin = true
  /\ s_admin_id as_admin = Some 1
  /\ head (buses_by_number "BUS001" db0) = Some bus1
  /\ 0 <= capacity bus1
  /\ -5 <= 0
  /\ exists row,
       schedules (fst (create_slot as_admin "BUS001" "2025-01-03" "08:30" (-5) db0))
       = (schedules db0 ++ [row])%list
       /\ available_seats row = -5.
Proof.
  split; [reflexivity|]. split; [reflexivity|]. split; [reflexivity|].
  split; [simpl; lia|]. split; [lia|].
  pose proof (create_slot_spec db0 as_admin 1 "BUS001" "2025-01-03" "08:30" (-5)
                eq_refl eq_refl) as [_ [_ [_ H]]].
  apply (H bus1); [reflexivity | simpl; lia | lia].
Defined.

(** ** Viewing a ticket *)

Lemma head_filter_In {A} (p : A -> bool) (l : list A) (a : A) :
  head (filter p l) = Some a -> In a l /\ p a = true.
Proof.
  intros H. apply filter_In.
  destruct (filter p l) as [|x xs]; [discriminate|].
  injection H as ->. now left.
Qed.

Lemma filter_nil_iff {A} (p : A -> bool) (l : list A) :
  filter p l = [] <-> forall a, In a l -> p a = false.
Proof.
  induction l as [|x l IH]; simpl.
  - split; [tauto | reflexivity].
  - destruct (p x) eqn:E.
    + split; [discriminate|]. intros H. specialize (H x (or_introl eq_refl)).
      congruence.
    + rewrite IH. split.
      * intros H a [<-|Ha]; auto.
      * intros H a Ha. apply H. now right.
Qed.



Lemma view_ticket_broken_join db sess uid bid b :
  s_user_id sess = Some uid ->
  head (filter (fun b => (booking_id b =? bid) && (b_user_id b =? uid)
                         && status_eqb (status b) confirmed) (bookings db))
  = Some b ->
  schedule_of db b = None ->
  view_ticket sess bid db = (db, respond (Redirect ep_dashboard) ErrorFlash).
Proof.
  intros Hu Hb Hs. unfold view_ticket. rewrite Hu.
  unfold guarded, bind, gets. cbv beta.
  destruct (filter _ (bookings db)) as [|b0 rest]; [discriminate|].
  simpl in Hb. injection Hb as ->.
  destruct (user_of db b); cbn [subscript ret raise bind]; [|reflexivity].
  rewrite Hs. reflexivity.
Qed.

(** On a store in which a schedule row is absent while a booking still
    names it, [view_ticket] for that booking ends in its error branch. *)
Example view_ticket_missing_schedule :
  view_ticket as_alice 1 db_orphan
  = (db_orphan, respond (Redirect ep_dashboard) ErrorFlash).
Proof.
  apply (view_ticket_broken_join db_orphan as_alice 1 1
           (mkBooking 1 1 1 1 confirmed (Naive 0))); reflexivity.
Qed.




(** * Further properties of the handlers *)

(** ** What a granted confirmation and a granted cancellation write *)

Lemma confirm_booking_granted db sess uid sid seat stamp schedule bus :
  s_user_id sess = Some uid ->
  head (schedules_by_id sid db) = Some schedule ->
  bus_of db schedule = Some bus ->
  1 <= seat <= capacity bus ->
  confirmed_on_seat sid seat db = [] ->
  0 < available_seats schedule ->
  confirm_booking sess sid seat stamp db
  = (after_confirm uid sid seat stamp schedule db,
     respond (Redirect ep_dashboard) BookingConfirmed).
Proof.
  intros Hu Hs Hb Hseat Hfree Hpos.
  unfold confirm_booking. rewrite Hu.
  unfold guarded, bind, gets. cbv beta.
  destruct (schedules_by_id sid db) as [|s0 rest]; [discriminate|].
  simpl in Hs. injection Hs as ->. rewrite Hb. cbn [subscript ret].
  replace ((seat <? 1) || (seat >? capacity bus)) with false.
  2:{ symmetry. apply orb_false_iff. rewrite Z.ltb_ge, Z.gtb_ltb, Z.ltb_ge. lia. }
  rewrite Hfree.
  replace (available_seats schedule <=? 0) with false
    by (symmetry; apply Z.leb_gt; lia).
  reflexivity.
Qed.

Lemma confirm_booking_outcome db sess sid seat stamp :
  fst (confirm_booking sess sid seat stamp db) = db
  \/ exists uid schedule bus,
       s_user_id sess = Some uid
       /\ head (schedules_by_id sid db) = Some schedule
       /\ bus_of db schedule = Some bus
       /\ 1 <= seat <= capacity bus
       /\ confirmed_on_seat sid seat db = []
       /\ 0 < available_seats schedule
       /\ confirm_booking sess sid seat stamp db
          = (after_confirm uid sid seat stamp schedule db,
             respond (Redirect ep_dashboard) BookingConfirmed).
Proof.
  destruct (s_user_id sess) as [uid|] eqn:Hu.
  2:{ left. unfold confirm_booking. rewrite Hu. reflexivity. }
  destruct (head (schedules_by_id sid db)) as [schedule|] eqn:Hs.
  2:{ left. unfold confirm_booking. rewrite Hu.
      unfold guarded, bind, gets. cbv beta.
      destruct (schedules_by_id sid db); [reflexivity | discriminate]. }
  destruct (bus_of db schedule) as [bus|] eqn:Hb.
  2:{ left. unfold confirm_booking. rewrite Hu.
      unfold guarded, bind, gets. cbv beta.
      destruct (schedules_by_id sid db) as [|s0 rest]; [discriminate|].
      simpl in Hs. injection Hs as ->. rewrite Hb. reflexivity. }
  destruct (Z_le_dec 1 seat) as [Hlo|Hlo];
    [destruct (Z_le_dec seat (capacity bus)) as [Hhi|Hhi]|].
  - destruct (confirmed_on_seat sid seat db) as [|b bs] eqn:Hfree.
    + destruct (Z_lt_dec 0 (available_seats schedule)) as [Hpos|Hpos].
      * right. exists uid, schedule, bus. repeat split; try assumption.
        apply (confirm_booking_granted db sess uid sid seat stamp schedule bus);
          auto.
      * left. unfold confirm_booking. rewrite Hu.
        unfold guarded, bind, gets. cbv beta.
        destruct (schedules_by_id sid db) as [|s0 rest]; [discriminate|].
        simpl in Hs. injection Hs as ->. rewrite Hb. cbn [subscript ret].
        destruct ((seat <? 1) || (seat >? capacity bus)); [reflexivity|].
        rewrite Hfree.
        replace (available_seats schedule <=? 0) with true
          by (symmetry; apply Z.leb_le; lia).
        reflexivity.
    + left. unfold confirm_booking. rewrite Hu.
      unfold guarded, bind, gets. cbv beta.
      destruct (schedules_by_id sid db) as [|s0 rest]; [discriminate|].
      simpl in Hs. injection Hs as ->. rewrite Hb. cbn [subscript ret].
      destruct ((seat <? 1) || (seat >? capacity bus)); [reflexivity|].
      rewrite Hfree. reflexivity.
  - left. unfold confirm_booking. rewrite Hu.
    unfold guarded, bind, gets. cbv beta.
    destruct (schedules_by_id sid db) as [|s0 rest]; [discriminate|].
    simpl in Hs. injection Hs as ->. rewrite Hb. cbn [subscript ret].
    replace (seat >? capacity bus) with true
      by (symmetry; apply Z.gtb_gt; lia).
    rewrite orb_true_r. reflexivity.
  - left. unfold confirm_booking. rewrite Hu.
    unfold guarded, bind, gets. cbv beta.
    destruct (schedules_by_id sid db) as [|s0 rest]; [discriminate|].
    simpl in Hs. injection Hs as ->. rewrite Hb. cbn [subscript ret].
    replace (seat <? 1) with true by (symmetry; apply Z.ltb_lt; lia).
    reflexivity.
Qed.

Lemma cancel_booking_granted db sess uid bid now booking t schedule :
  s_user_id sess = Some uid ->
  head (filter (fun b => (booking_id b =? bid) && (b_user_id b =? uid))
               (bookings db)) = Some booking ->
  booking_time booking = Naive t ->
  hold_period <= now - t ->
  head (schedules_by_id (b_schedule_id booking) db) = Some schedule ->
  cancel_booking sess bid now db
  = (after_cancel bid booking schedule db,
     respond (Redirect ep_dashboard) BookingCancelled).
Proof.
  intros Hu Hb Ht Hold Hs.
  unfold cancel_booking. rewrite Hu.
  unfold guarded, bind, gets. cbv beta.
  destruct (filter _ (bookings db)) as [|b0 rest]; [discriminate|].
  simpl in Hb. injection Hb as ->. rewrite Ht.
  cbn -[Z.ltb Z.sub hold_period].
  replace (now - t <? hold_period) with false
    by (symmetry; apply Z.ltb_ge; exact Hold).
  cbn -[Z.ltb Z.sub hold_period].
  unfold schedules_by_id in *. cbn -[Z.ltb Z.sub hold_period].
  destruct (filter _ (schedules db)) as [|s0 ss]; [discriminate|].
  simpl in Hs. injection Hs as ->. reflexivity.
Qed.

Lemma cancel_booking_outcome db sess bid now :
  fst (cancel_booking sess bid now db) = db
  \/ exists uid booking t,
       s_user_id sess = Some uid
       /\ head (filter (fun b => (booking_id b =? bid) && (b_user_id b =? uid))
                       (bookings db)) = Some booking
       /\ booking_time booking = Naive t
       /\ hold_period <= now - t
       /\ ((exists schedule,
              head (schedules_by_id (b_schedule_id booking) db) = Some schedule
              /\ cancel_booking sess bid now db
                 = (after_cancel bid booking schedule db,
                    respond (Redirect ep_dashboard) BookingCancelled))
           \/ (schedules_by_id (b_schedule_id booking) db = []
               /\ cancel_booking sess bid now db
                  = (set_bookings
                       (map (fun b => if booking_id b =? bid
                                      then with_status cancelled b else b)
                            (bookings db)) db,
                     respond (Redirect ep_dashboard) ErrorFlash))).
Proof.
  destruct (s_user_id sess) as [uid|] eqn:Hu.
  2:{ left. unfold cancel_booking. rewrite Hu. reflexivity. }
  destruct (head (filter (fun b => (booking_id b =? bid) && (b_user_id b =? uid))
                         (bookings db))) as [booking|] eqn:Hb.
  2:{ left. unfold cancel_booking. rewrite Hu.
      unfold guarded, bind, gets. cbv beta.
      destruct (filter _ (bookings db)); [reflexivity | discriminate]. }
  destruct (booking_time booking) as [t|t] eqn:Ht.
  2:{ left. unfold cancel_booking. rewrite Hu.
      unfold guarded, bind, gets. cbv beta.
      destruct (filter _ (bookings db)) as [|b0 rest]; [discriminate|].
      simpl in Hb. injection Hb as ->. rewrite Ht. reflexivity. }
  destruct (Z_lt_dec (now - t) hold_period) as [Hearly|Hold].
  { left. unfold cancel_booking. rewrite Hu.
    unfold guarded, bind, gets. cbv beta.
    destruct (filter _ (bookings db)) as [|b0 rest]; [discriminate|].
    simpl in Hb. injection Hb as ->. rewrite Ht.
    cbn -[Z.ltb Z.sub hold_period].
    replace (now - t <? hold_period) with true
      by (symmetry; apply Z.ltb_lt; exact Hearly).
    reflexivity. }
  right. exists uid, booking, t.
  split; [reflexivity|]. split; [exact Hb|]. split; [exact Ht|].
  split; [lia|].
  destruct (schedules_by_id (b_schedule_id booking) db) as [|schedule ss] eqn:Hs.
  - right. split; [reflexivity|].
    unfold cancel_booking. rewrite Hu.
    unfold guarded, bind, gets. cbv beta.
    destruct (filter _ (bookings db)) as [|b0 rest]; [discriminate|].
    simpl in Hb. injection Hb as ->. rewrite Ht.
    cbn -[Z.ltb Z.sub hold_period].
    replace (now - t <? hold_period) with false
      by (symmetry; apply Z.ltb_ge; lia).
    cbn -[Z.ltb Z.sub hold_period].
    unfold schedules_by_id in *. cbn -[Z.ltb Z.sub hold_period].
    rewrite Hs. reflexivity.
  - left. exists schedule. split; [reflexivity|].
    apply (cancel_booking_granted db sess uid bid now booking t schedule);
      auto; [lia | rewrite Hs; reflexivity].
Qed.

(** ** What the other handlers write *)

Lemma register_run h form db :
  register h form db
  = if register_form_ok form && is_empty (same_identity form db)
    then (after_register h form db,
          respond (Redirect ep_login) RegistrationSuccessful)
    else (db, snd (register h form db)).
Proof.
  unfold register, register_form_ok, same_identity, after_register.
  destruct (nonempty (Py.strip (f_student_id form))); cbn [andb negb];
    [|reflexivity].
  destruct (nonempty (f_name form)); cbn [andb negb]; [|reflexivity].
  destruct (f_year form =? 0); cbn [andb negb]; [reflexivity|].
  destruct (nonempty (f_email form)); cbn [andb negb]; [|reflexivity].
  destruct (nonempty (f_phone form)); cbn [andb negb]; [|reflexivity].
  destruct (nonempty (f_password form)); cbn [andb negb]; [|reflexivity].
  destruct (Py.contains "@student.gitam.edu" (f_email form));
    cbn [andb negb]; [|reflexivity].
  destruct (Py.len (f_phone form) =? 10); cbn [andb negb orb]; [|reflexivity].
  destruct (Py.str_isdigit (f_phone form)); cbn [andb negb orb]; [|reflexivity].
  destruct (password_ok (f_password form)); cbn [andb negb]; [|reflexivity].
  destruct (valid_student_id (f_year form) (Py.strip (f_student_id form)));
    cbn [andb negb]; [|reflexivity].
  unfold guarded, bind, gets. cbv beta.
  destruct (filter _ (users db)); reflexivity.
Qed.

Lemma book_seat_reads db sess sid : fst (book_seat sess sid db) = db.
Proof.
  unfold book_seat. destruct (s_user_id sess) as [uid|]; [|reflexivity].
  unfold guarded, bind, gets. cbv beta.
  destruct (negb (is_empty (confirmed_of_user uid sid db))); [reflexivity|].
  destruct (schedules_by_id sid db) as [|s rest]; [reflexivity|].
  destruct (available_seats s <=? 0); [reflexivity|].
  destruct (bus_of db s) as [bus|]; cbn; [|reflexivity].
  destruct (route_of db bus); reflexivity.
Qed.

Lemma view_ticket_reads db sess bid : fst (view_ticket sess bid db) = db.
Proof.
  unfold view_ticket. destruct (s_user_id sess) as [uid|]; [|reflexivity].
  unfold guarded, bind, gets. cbv beta.
  destruct (filter _ (bookings db)) as [|b rest]; cbn; [reflexivity|].
  destruct (user_of db b); cbn; [|reflexivity].
  destruct (schedule_of db b) as [s|]; cbn; [|reflexivity].
  destruct (bus_of db s) as [bus|]; cbn; [|reflexivity].
  destruct (route_of db bus); reflexivity.
Qed.

Lemma create_slot_outcome db sess bus_no dep_date dep_time total_seats :
  fst (create_slot sess bus_no dep_date dep_time total_seats db) = db
  \/ exists admin bus,
       s_is_admin sess = true /\ s_admin_id sess = Some admin
       /\ head (buses_by_number bus_no db) = Some bus
       /\ total_seats <= capacity bus
       /\ create_slot sess bus_no dep_date dep_time total_seats db
          = (after_create admin bus dep_date dep_time total_seats db,
             respond (Redirect ep_admin_panel) ScheduleCreated).
Proof.
  unfold create_slot.
  destruct (s_is_admin sess); cbn [negb]; [|now left].
  unfold guarded, bind, gets. cbv beta.
  destruct (buses_by_number bus_no db) as [|bus rest]; [now left|].
  destruct (total_seats >? capacity bus) eqn:Hcap; [now left|].
  destruct (s_admin_id sess) as [admin|]; [|now left].
  right. exists admin, bus. rewrite Z.gtb_ltb, Z.ltb_ge in Hcap.
  repeat split; auto.
Qed.

Lemma cancel_schedule_run db sess sid :
  cancel_schedule sess sid db
  = if s_is_admin sess
    then (after_delete sid db, respond (Redirect ep_manage_buses) ScheduleCancelled)
    else (db, respond (Redirect ep_admin_login) UnauthorizedAccess).
Proof. unfold cancel_schedule. destruct (s_is_admin sess); reflexivity. Qed.

Lemma edit_schedule_form_reads earlier sid db :
  fst (edit_schedule_form earlier sid db) = db.
Proof.
  unfold edit_schedule_form, guarded, bind, gets. cbv beta.
  destruct (schedules_by_id sid db) as [|s rest]; [reflexivity|].
  destruct (bus_of db s) as [bus|]; cbn; [|reflexivity].
  destruct (route_of db bus); reflexivity.
Qed.

Lemma edit_schedule_outcome db sess sid bus_no departure_datetime total_seats :
  fst (edit_schedule sess sid bus_no departure_datetime total_seats db) = db
  \/ exists admin bus d t,
       s_is_admin sess = true /\ s_admin_id sess = Some admin
       /\ head (buses_by_number bus_no db) = Some bus
       /\ Py.split_once "T" departure_datetime = Some (d, t)
       /\ edit_schedule sess sid bus_no departure_datetime total_seats db
          = (after_edit admin sid bus d t total_seats db,
             respond (Redirect ep_admin_panel) ScheduleUpdated).
Proof.
  unfold edit_schedule.
  destruct (s_is_admin sess); cbn [negb]; [|now left].
  unfold edit_schedule_post, bind, gets. cbv beta.
  destruct (buses_by_number bus_no db) as [|bus rest]; [now left|].
  destruct (Py.split_once "T" departure_datetime) as [[d t]|];
    cbn [subscript ret raise];
    [|left; apply edit_schedule_form_reads].
  destruct (s_admin_id sess) as [admin|]; cbn [subscript ret raise];
    [|left; apply edit_schedule_form_reads].
  right. exists admin, bus, d, t. repeat split; auto.
Qed.

(** ** Generated keys *)

Lemma serve_cons r rs db :
  fst (serve (r :: rs) db) = fst (serve rs (fst (handle r db))).
Proof.
  cbn [serve]. destruct (handle r db) as [db1 resp]. cbn [fst].
  destruct (serve rs db1) as [db2 resps]. reflexivity.
Qed.

Lemma keys_below_snoc {A} (key : A -> Z) next rows r :
  keys_below key next rows -> key r = next ->
  keys_below key (next + 1) (rows ++ [r]).
Proof.
  intros [Hnd Hlt] Hr. split.
  - rewrite map_app. simpl. apply NoDup_app.
    + exact Hnd.
    + repeat constructor. intros [].
    + intros k Hin [Hk|[]]. rewrite Forall_forall in Hlt.
      apply in_map_iff in Hin. destruct Hin as [x [Hx Hin]].
      specialize (Hlt x Hin). lia.
  - apply Forall_app. split.
    + eapply Forall_impl; [|exact Hlt]. intros x Hx; cbv beta in *. lia.
    + repeat constructor. lia.
Qed.

Lemma keys_below_map {A} (key : A -> Z) next rows (f : A -> A) :
  (forall r, key (f r) = key r) ->
  keys_below key next rows -> keys_below key next (map f rows).
Proof.
  intros Hf [Hnd Hlt]. split.
  - rewrite map_map. erewrite map_ext; [exact Hnd|]. exact Hf.
  - apply Forall_map. eapply Forall_impl; [|exact Hlt].
    intros r Hr. cbv beta. rewrite Hf. exact Hr.
Qed.

Lemma NoDup_map_filter {A B} (f : A -> B) (p : A -> bool) l :
  NoDup (map f l) -> NoDup (map f (filter p l)).
Proof.
  induction l as [|a l IH]; simpl; intros Hnd; [constructor|].
  inversion Hnd as [|? ? Hnotin Hnd']; subst.
  destruct (p a); simpl; [constructor|]; auto.
  intros Hin. apply Hnotin. apply in_map_iff in Hin.
  destruct Hin as [x [Hx Hin]]. apply filter_In in Hin.
  apply in_map_iff. exists x. tauto.
Qed.

Lemma keys_below_filter {A} (key : A -> Z) next rows (p : A -> bool) :
  keys_below key next rows -> keys_below key next (filter p rows).
Proof.
  intros [Hnd Hlt]. split.
  - now apply NoDup_map_filter.
  - apply Forall_forall. intros r Hr. apply filter_In in Hr.
    rewrite Forall_forall in Hlt. apply Hlt. tauto.
Qed.

Lemma keys_below_weaken {A} (key : A -> Z) next rows :
  keys_below key next rows -> keys_below key (next + 1) rows.
Proof.
  intros [Hnd Hlt]. split; [exact Hnd|].
  eapply Forall_impl; [|exact Hlt]. intros r Hr; cbv beta in *. lia.
Qed.

Lemma head_schedule_key sid db schedule :
  keys_ok db -> head (schedules_by_id sid db) = Some schedule ->
  In schedule (schedules db) /\ schedule_id schedule = sid
  /\ sid < next_schedule_id db.
Proof.
  intros [_ [[_ Hlt] _]] Hs. apply head_filter_In in Hs.
  destruct Hs as [Hin Hid]. apply Z.eqb_eq in Hid.
  rewrite Forall_forall in Hlt. specialize (Hlt _ Hin). cbv beta in Hlt.
  repeat split; auto. lia.
Qed.

Lemma keys_ok_handle r db : keys_ok db -> keys_ok (fst (handle r db)).
Proof.
  intros Hk. pose proof Hk as [Hu [Hs [Hb Hr]]].
  destruct r as [h form|sess sid|sess sid seat stamp|sess bid now
                |sess bus_no d t n|sess sid|sess sid bus_no dt n|sess bid];
    cbn [handle].
  - rewrite register_run.
    destruct (register_form_ok form && is_empty (same_identity form db));
      [|exact Hk].
    cbn [fst]. unfold after_register, set_users, keys_ok. cbn.
    split; [|split; [exact Hs | split; [exact Hb | exact Hr]]].
    apply (keys_below_snoc user_id); [exact Hu | reflexivity].
  - rewrite book_seat_reads. exact Hk.
  - destruct (confirm_booking_outcome db sess sid seat stamp)
      as [->|[uid [schedule [bus [_ [Hsel [_ [_ [_ [_ ->]]]]]]]]]]; [exact Hk|].
    destruct (head_schedule_key sid db schedule Hk Hsel) as [_ [_ Hlt]].
    cbn [fst]. unfold after_confirm, keys_ok. cbn.
    split; [exact Hu|]. split.
    { apply keys_below_map; [|exact Hs].
      intros s. destruct (schedule_id s =? sid); reflexivity. }
    split.
    { apply (keys_below_snoc booking_id); [exact Hb | reflexivity]. }
    apply Forall_app. split; [exact Hr|]. repeat constructor. exact Hlt.
  - destruct (cancel_booking_outcome db sess bid now)
      as [->|[uid [booking [t [_ [_ [_ [_ [[schedule [_ ->]]|[_ ->]]]]]]]]]];
      [exact Hk| |]; cbn [fst]; unfold after_cancel, set_bookings, keys_ok; cbn.
    + split; [exact Hu|]. split.
      { apply keys_below_map; [|exact Hs].
        intros s. destruct (schedule_id s =? _); reflexivity. }
      split.
      { apply keys_below_map; [|exact Hb].
        intros b. destruct (booking_id b =? bid); reflexivity. }
      apply Forall_map. eapply Forall_impl; [|exact Hr].
      intros b Hlt. cbv beta. destruct (booking_id b =? bid); exact Hlt.
    + split; [exact Hu|]. split; [exact Hs|]. split.
      { apply keys_below_map; [|exact Hb].
        intros b. destruct (booking_id b =? bid); reflexivity. }
      apply Forall_map. eapply Forall_impl; [|exact Hr].
      intros b Hlt. cbv beta. destruct (booking_id b =? bid); exact Hlt.
  - destruct (create_slot_outcome db sess bus_no d t n)
      as [->|[admin [bus [_ [_ [_ [_ ->]]]]]]]; [exact Hk|].
    cbn [fst]. unfold after_create, keys_ok. cbn.
    split; [exact Hu|]. split.
    { apply (keys_below_snoc schedule_id); [exact Hs | reflexivity]. }
    split; [exact Hb|].
    eapply Forall_impl; [|exact Hr]. intros b Hlt; cbv beta in *. lia.
  - rewrite cancel_schedule_run. destruct (s_is_admin sess); [|exact Hk].
    cbn [fst]. unfold after_delete, set_schedules, keys_ok. cbn.
    split; [exact Hu|]. split; [now apply keys_below_filter|].
    split; [exact Hb | exact Hr].
  - destruct (edit_schedule_outcome db sess sid bus_no dt n)
      as [->|[admin [bus [d [t [_ [_ [_ [_ ->]]]]]]]]]; [exact Hk|].
    cbn [fst]. unfold after_edit, keys_ok. cbn.
    split; [exact Hu|]. split.
    { apply keys_below_map; [|exact Hs].
      intros s. destruct (schedule_id s =? sid); reflexivity. }
    split; [exact Hb | exact Hr].
  - rewrite view_ticket_reads. exact Hk.
Qed.

(** Keys stay sound over any sequence of requests: the ids of users,
    schedules and bookings remain distinct and below their sequences, and
    every booking names a schedule id that was issued. *)
Theorem keys_ok_serve :
  forall rs db, keys_ok db -> keys_ok (fst (serve rs db)).
Proof.
  induction rs as [|r rs IH]; intros db Hk; [exact Hk|].
  rewrite serve_cons. apply IH. now apply keys_ok_handle.
Qed.

Lemma keys_ok_db0 : keys_ok db0.
Proof.
  unfold keys_ok, keys_below, db0. cbn.
  repeat split; repeat constructor; cbn; try lia; intuition discriminate.
Qed.

Lemma keys_ok_serve_witness :
  keys_ok db0 /\ keys_ok (fst (serve two_seats db0)).
Proof.
  split; [exact keys_ok_db0|].
  apply (keys_ok_serve two_seats db0). exact keys_ok_db0.
Defined.

(** ** Tables and rows a request cannot touch *)

Lemma handle_frame r db :
  buses (fst (handle r db)) = buses db
  /\ routes (fst (handle r db)) = routes db.
Proof.
  destruct r as [h form|sess sid|sess sid seat stamp|sess bid now
                |sess bus_no d t n|sess sid|sess sid bus_no dt n|sess bid];
    cbn [handle].
  - rewrite register_run.
    destruct (register_form_ok form && is_empty (same_identity form db));
      split; reflexivity.
  - rewrite book_seat_reads. split; reflexivity.
  - destruct (confirm_booking_outcome db sess sid seat stamp)
      as [->|[uid [schedule [bus [_ [_ [_ [_ [_ [_ ->]]]]]]]]]];
      split; reflexivity.
  - destruct (cancel_booking_outcome db sess bid now)
      as [->|[uid [booking [t [_ [_ [_ [_ [[schedule [_ ->]]|[_ ->]]]]]]]]]];
      split; reflexivity.
  - destruct (create_slot_outcome db sess bus_no d t n)
      as [->|[admin [bus [_ [_ [_ [_ ->]]]]]]]; split; reflexivity.
  - rewrite cancel_schedule_run. destruct (s_is_admin sess); split; reflexivity.
  - destruct (edit_schedule_outcome db sess sid bus_no dt n)
      as [->|[admin [bus [d [t [_ [_ [_ [_ ->]]]]]]]]]; split; reflexivity.
  - rewrite view_ticket_reads. split; reflexivity.
Qed.

(** No sequence of requests changes the buses or the routes: the capacity
    of a bus is fixed for the life of the store. *)
Theorem buses_and_routes_fixed :
  forall rs db,
    buses (fst (serve rs db)) = buses db
    /\ routes (fst (serve rs db)) = routes db.
Proof.
  induction rs as [|r rs IH]; intros db; [split; reflexivity|].
  rewrite serve_cons. destruct (IH (fst (handle r db))) as [Hb Hr].
  destruct (handle_frame r db) as [Hb' Hr']. split; congruence.
Qed.

(** A request whose session has no student and no admin flag writes
    nothing: the routes guarded by the student id answer with the redirect to
    the login page and no message, the routes guarded by the admin flag with
    the redirect to the admin login and the unauthorized message. *)
Theorem anonymous_request_refused :
  forall r sess db,
    session_of_request r = Some sess ->
    anonymous sess ->
    handle r db
    = (db, if admin_route r
           then respond (Redirect ep_admin_login) UnauthorizedAccess
           else mkResponse (Redirect ep_login) []).
Proof.
  intros r sess db Hr [Hu Ha].
  destruct r; cbn in Hr; try discriminate; injection Hr as ->;
    cbn [handle admin_route].
  - unfold book_seat. rewrite Hu. reflexivity.
  - unfold confirm_booking. rewrite Hu. reflexivity.
  - unfold cancel_booking. rewrite Hu. reflexivity.
  - unfold create_slot. rewrite Ha. reflexivity.
  - unfold cancel_schedule. rewrite Ha. reflexivity.
  - unfold edit_schedule. rewrite Ha. reflexivity.
  - unfold view_ticket. rewrite Hu. reflexivity.
Qed.

Lemma anonymous_request_refused_witness :
  session_of_request (CancelSchedule (mkSession None None false) 1)
    = Some (mkSession None None false)
  /\ anonymous (mkSession None None false)
  /\ handle (CancelSchedule (mkSession None None false) 1) db0
     = (db0, respond (Redirect ep_admin_login) UnauthorizedAccess)
  /\ handle (BookSeat (mkSession None None false) 1) db0
     = (db0, mkResponse (Redirect ep_login) []).
Proof.
  split; [reflexivity|]. split; [split; reflexivity|]. split.
  - apply (anonymous_request_refused
             (CancelSchedule (mkSession None None false) 1)
             (mkSession None None false) db0);
      [reflexivity | split; reflexivity].
  - apply (anonymous_request_refused
             (BookSeat (mkSession None None false) 1)
             (mkSession None None false) db0);
      [reflexivity | split; reflexivity].
Defined.

(** A request without the admin flag leaves the schedule rows as they are
    up to the seat counter: it creates, deletes and retargets none.  A
    request without a student in the session leaves the booking rows as they
    are. *)
Theorem privileges :
  forall r db,
    ((forall sess, session_of_request r = Some sess -> s_is_admin sess = false) ->
     map (with_available_seats 0) (schedules (fst (handle r db)))
     = map (with_available_seats 0) (schedules db))
    /\ ((forall sess, session_of_request r = Some sess -> s_user_id sess = None) ->
        bookings (fst (handle r db)) = bookings db).
Proof.
  intros r db. split; intros Hsess.
  - destruct r as [h form|sess sid|sess sid seat stamp|sess bid now
                  |sess bus_no d t n|sess sid|sess sid bus_no dt n|sess bid];
      cbn [handle].
    + rewrite register_run.
      destruct (register_form_ok form && is_empty (same_identity form db));
        reflexivity.
    + rewrite book_seat_reads. reflexivity.
    + destruct (confirm_booking_outcome db sess sid seat stamp)
        as [->|[uid [schedule [bus [_ [_ [_ [_ [_ [_ ->]]]]]]]]]];
        [reflexivity|].
      cbn. rewrite map_map. apply map_ext. intros s.
      destruct (schedule_id s =? sid); reflexivity.
    + destruct (cancel_booking_outcome db sess bid now)
        as [->|[uid [booking [t [_ [_ [_ [_ [[schedule [_ ->]]|[_ ->]]]]]]]]]];
        [reflexivity| |reflexivity].
      cbn. rewrite map_map. apply map_ext. intros s.
      destruct (schedule_id s =? _); reflexivity.
    + unfold create_slot. rewrite (Hsess sess eq_refl). reflexivity.
    + unfold cancel_schedule. rewrite (Hsess sess eq_refl). reflexivity.
    + unfold edit_schedule. rewrite (Hsess sess eq_refl). reflexivity.
    + rewrite view_ticket_reads. reflexivity.
  - destruct r as [h form|sess sid|sess sid seat stamp|sess bid now
                  |sess bus_no d t n|sess sid|sess sid bus_no dt n|sess bid];
      cbn [handle].
    + rewrite register_run.
      destruct (register_form_ok form && is_empty (same_identity form db));
        reflexivity.
    + rewrite book_seat_reads. reflexivity.
    + unfold confirm_booking. rewrite (Hsess sess eq_refl). reflexivity.
    + unfold cancel_booking. rewrite (Hsess sess eq_refl). reflexivity.
    + destruct (create_slot_outcome db sess bus_no d t n)
        as [->|[admin [bus [_ [_ [_ [_ ->]]]]]]]; reflexivity.
    + rewrite cancel_schedule_run. destruct (s_is_admin sess); reflexivity.
    + destruct (edit_schedule_outcome db sess sid bus_no dt n)
        as [->|[admin [bus [d [t [_ [_ [_ [_ ->]]]]]]]]]; reflexivity.
    + rewrite view_ticket_reads. reflexivity.
Qed.

Lemma privileges_witness :
  map (with_available_seats 0)
      (schedules (fst (handle (ConfirmBooking as_alice 1 1 (Naive 0)) db0)))
  = map (with_available_seats 0) (schedules db0)
  /\ bookings (fst (handle (CancelSchedule as_admin 1) db0)) = bookings db0.
Proof.
  split.
  - apply (proj1 (privileges (ConfirmBooking as_alice 1 1 (Naive 0)) db0)).
    intros sess H. injection H as <-. reflexivity.
  - apply (proj2 (privileges (CancelSchedule as_admin 1) db0)).
    intros sess H. injection H as <-. reflexivity.
Defined.

(** ** One confirmed booking per seat *)

Lemma filter_map_shrinks {A} (p : A -> bool) (f : A -> A) (l : list A) :
  (forall a, p (f a) = true -> p a = true) ->
  (List.length (filter p (map f l)) <= List.length (filter p l))%nat.
Proof.
  intros Hf. induction l as [|a l IH]; simpl; [lia|].
  destruct (p (f a)) eqn:E.
  - rewrite (Hf a E). simpl. lia.
  - destruct (p a); simpl; lia.
Qed.

Lemma cancel_shrinks_seat sid seat bid l :
  le (List.length
        (filter (fun b => (b_schedule_id b =? sid) && (seat_number b =? seat)
                          && status_eqb (status b) confirmed)
                (map (fun b => if booking_id b =? bid
                               then with_status cancelled b else b) l)))
     (List.length
        (filter (fun b => (b_schedule_id b =? sid) && (seat_number b =? seat)
                          && status_eqb (status b) confirmed) l)).
Proof.
  apply filter_map_shrinks. intros b.
  destruct (booking_id b =? bid); [|auto].
  cbn. rewrite andb_false_r. discriminate.
Qed.

Lemma seats_unique_handle r db :
  seats_unique db -> seats_unique (fst (handle r db)).
Proof.
  intros Hinv.
  destruct r as [h form|sess sid|sess sid seat stamp|sess bid now
                |sess bus_no d t n|sess sid|sess sid bus_no dt n|sess bid];
    cbn [handle].
  - rewrite register_run.
    destruct (register_form_ok form && is_empty (same_identity form db));
      exact Hinv.
  - rewrite book_seat_reads. exact Hinv.
  - destruct (confirm_booking_outcome db sess sid seat stamp)
      as [->|[uid [schedule [bus [_ [_ [_ [_ [Hfree [_ ->]]]]]]]]]];
      [exact Hinv|].
    intros sid' seat'. specialize (Hinv sid' seat').
    unfold confirmed_on_seat in *. cbn. rewrite filter_app, length_app. cbn.
    destruct (sid =? sid') eqn:Es; cbn; [|lia].
    destruct (seat =? seat') eqn:Et; cbn; [|lia].
    apply Z.eqb_eq in Es, Et. subst. rewrite Hfree. cbn. lia.
  - destruct (cancel_booking_outcome db sess bid now)
      as [->|[uid [booking [t [_ [_ [_ [_ [[schedule [_ ->]]|[_ ->]]]]]]]]]];
      [exact Hinv| |];
      intros sid' seat'; specialize (Hinv sid' seat');
      unfold confirmed_on_seat in *; cbn;
      pose proof (cancel_shrinks_seat sid' seat' bid (bookings db)); lia.
  - destruct (create_slot_outcome db sess bus_no d t n)
      as [->|[admin [bus [_ [_ [_ [_ ->]]]]]]]; exact Hinv.
  - rewrite cancel_schedule_run. destruct (s_is_admin sess); exact Hinv.
  - destruct (edit_schedule_outcome db sess sid bus_no dt n)
      as [->|[admin [bus [d [t [_ [_ [_ [_ ->]]]]]]]]]; exact Hinv.
  - rewrite view_ticket_reads. exact Hinv.
Qed.

(** Over any sequence of requests no seat of a schedule comes to be held
    by two confirmed bookings. *)
Theorem seats_unique_serve :
  forall rs db, seats_unique db -> seats_unique (fst (serve rs db)).
Proof.
  induction rs as [|r rs IH]; intros db Hinv; [exact Hinv|].
  rewrite serve_cons. apply IH. now apply seats_unique_handle.
Qed.

Lemma seats_unique_serve_witness :
  seats_unique db0 /\ seats_unique (fst (serve two_seats db0)).
Proof.
  assert (H : seats_unique db0) by (intros sid seat; cbn; lia).
  split; [exact H|]. apply (seats_unique_serve two_seats db0). exact H.
Defined.

(** ** The seat picker *)

Lemma range1_In (n i : Z) : In i (range1 n) <-> 1 <= i <= n.
Proof.
  unfold range1. rewrite in_map_iff. split.
  - intros [k [<- Hk]]. apply in_seq in Hk. lia.
  - intros Hi. exists (Z.to_nat i). split; [lia|]. apply in_seq. lia.
Qed.

Lemma range1_NoDup (n : Z) : NoDup (range1 n).
Proof.
  unfold range1. apply Injective_map_NoDup.
  - intros a b Hab. lia.
  - apply seq_NoDup.
Qed.

Lemma mem_In (x : Z) (l : list Z) : mem x l = true <-> In x l.
Proof.
  unfold mem. rewrite existsb_exists. split.
  - intros [y [Hy He]]. apply Z.eqb_eq in He. now subst.
  - intros H. exists x. split; [exact H | apply Z.eqb_refl].
Qed.

Lemma seat_free_iff sid i db :
  mem i (map seat_number (confirmed_on_schedule sid db)) = false
  <-> confirmed_on_seat sid i db = [].
Proof.
  unfold confirmed_on_seat, confirmed_on_schedule.
  rewrite filter_nil_iff. split.
  - intros Hmem b Hb.
    destruct ((b_schedule_id b =? sid) && (seat_number b =? i)
              && status_eqb (status b) confirmed) eqn:E; [|reflexivity].
    rewrite !andb_true_iff in E. destruct E as [[Hs Hi] Hc].
    apply Z.eqb_eq in Hi.
    assert (Hin : In i (map seat_number
                          (filter (fun b => (b_schedule_id b =? sid)
                                            && status_eqb (status b) confirmed)
                                  (bookings db)))).
    { apply in_map_iff. exists b. split; [exact Hi|].
      apply filter_In. split; [exact Hb|]. now rewrite Hs, Hc. }
    apply mem_In in Hin. congruence.
  - intros Hnone.
    destruct (mem i _) eqn:E; [|reflexivity].
    apply mem_In in E. apply in_map_iff in E. destruct E as [b [Hi Hb]].
    apply filter_In in Hb. destruct Hb as [Hb Hp].
    apply andb_true_iff in Hp. destruct Hp as [Hs Hc].
    specialize (Hnone b Hb). rewrite Hs, Hc, Hi, Z.eqb_refl in Hnone.
    discriminate.
Qed.

Lemma book_seat_picker :
  forall db sess sid p,
    body (snd (book_seat sess sid db)) = RenderBookSeat p ->
    fst (book_seat sess sid db) = db
    /\ exists uid schedule bus,
         s_user_id sess = Some uid
         /\ confirmed_of_user uid sid db = []
         /\ head (schedules_by_id sid db) = Some schedule
         /\ bus_of db schedule = Some bus
         /\ 0 < available_seats schedule
         /\ p_capacity p = capacity bus
         /\ (forall i, In i (p_offered p) <->
                       1 <= i <= capacity bus
                       /\ confirmed_on_seat sid i db = [])
         /\ NoDup (p_offered p).
Proof.
  intros db sess sid p Hp. split; [apply book_seat_reads|].
  unfold book_seat in Hp.
  destruct (s_user_id sess) as [uid|]; [|discriminate].
  unfold guarded, bind, gets in Hp. cbv beta in Hp.
  destruct (confirmed_of_user uid sid db) as [|x xs] eqn:Hmine;
    [|discriminate].
  cbn [is_empty negb] in Hp.
  destruct (schedules_by_id sid db) as [|schedule rest] eqn:Hsel;
    [discriminate|].
  destruct (available_seats schedule <=? 0) eqn:Hpos; [discriminate|].
  destruct (bus_of db schedule) as [bus|] eqn:Hbus; cbn in Hp; [|discriminate].
  destruct (route_of db bus) as [route|]; cbn in Hp; [|discriminate].
  injection Hp as <-. cbn.
  exists uid, schedule, bus. apply Z.leb_gt in Hpos.
  split; [reflexivity|]. split; [exact Hmine|].
  split; [reflexivity|].
  split; [exact Hbus|]. split; [exact Hpos|]. split; [reflexivity|].
  split.
  - intros i. rewrite filter_In, range1_In, negb_true_iff, seat_free_iff.
    reflexivity.
  - apply NoDup_filter. apply range1_NoDup.
Qed.

(** When [book_seat] shows the picker, the caller holds no confirmed booking
    on the schedule, the schedule's counter is positive, and the seats on
    offer are exactly the numbers from 1 to the capacity of the bus that no
    confirmed booking of the schedule holds, each listed once.  The store is
    not written. *)
Theorem book_seat_offers :
  forall db sess sid p,
    body (snd (book_seat sess sid db)) = RenderBookSeat p ->
    fst (book_seat sess sid db) = db
    /\ exists uid schedule bus,
         s_user_id sess = Some uid
         /\ confirmed_of_user uid sid db = []
         /\ head (schedules_by_id sid db) = Some schedule
         /\ bus_of db schedule = Some bus
         /\ 0 < available_seats schedule
         /\ p_capacity p = capacity bus
         /\ (forall i, In i (p_offered p) <->
                       1 <= i <= capacity bus
                       /\ confirmed_on_seat sid i db = [])
         /\ NoDup (p_offered p).
Proof. exact book_seat_picker. Qed.

Lemma book_seat_offers_witness :
  exists p,
    body (snd (book_seat as_bob 1
                 (fst (confirm_booking as_alice 1 1 (Naive 0) db0))))
    = RenderBookSeat p
    /\ p_offered p = [2]
    /\ NoDup (p_offered p).
Proof.
  eexists. split; [vm_compute; reflexivity|]. split; [reflexivity|].
  pose proof (book_seat_offers
                (fst (confirm_booking as_alice 1 1 (Naive 0) db0)) as_bob 1 _
                eq_refl) as [_ [uid [schedule [bus H]]]].
  apply H.
Defined.

(** Every seat the picker offers is granted to the same student by
    [confirm_booking] on the same store. *)
Theorem offered_seat_is_granted :
  forall db sess sid p seat stamp,
    body (snd (book_seat sess sid db)) = RenderBookSeat p ->
    In seat (p_offered p) ->
    booking_accepted (snd (confirm_booking sess sid seat stamp db)).
Proof.
  intros db sess sid p seat stamp Hp Hin.
  destruct (book_seat_picker db sess sid p Hp)
    as [_ [uid [schedule [bus [Hu [_ [Hs [Hb [Hpos [_ [Hoff _]]]]]]]]]]].
  apply Hoff in Hin. destruct Hin as [Hrange Hfree].
  rewrite (confirm_booking_granted db sess uid sid seat stamp schedule bus);
    auto.
  reflexivity.
Qed.

Lemma offered_seat_is_granted_witness :
  booking_accepted
    (snd (confirm_booking as_bob 1 2 (Naive sec)
            (fst (confirm_booking as_alice 1 1 (Naive 0) db0)))).
Proof.
  eapply (offered_seat_is_granted _ as_bob 1 _ 2 (Naive sec)).
  - vm_compute. reflexivity.
  - left. reflexivity.
Defined.

(** ** Round trips after a granted confirmation *)

Lemma find_head_filter {A} (p : A -> bool) (l : list A) :
  find p l = head (filter p l).
Proof.
  induction l as [|a l IH]; simpl; [reflexivity|].
  destruct (p a); [reflexivity | exact IH].
Qed.

Lemma fresh_booking_absent db (q : Booking -> bool) :
  keys_ok db ->
  filter (fun b => (booking_id b =? next_booking_id db) && q b) (bookings db)
  = [].
Proof.
  intros [_ [_ [[_ Hlt] _]]]. apply filter_nil_iff. intros b Hb.
  rewrite Forall_forall in Hlt. specialize (Hlt b Hb). cbv beta in Hlt.
  replace (booking_id b =? next_booking_id db) with false
    by (symmetry; apply Z.eqb_neq; lia).
  reflexivity.
Qed.

Lemma schedule_after_confirm uid sid seat stamp schedule db :
  head (schedules_by_id sid db) = Some schedule ->
  find (fun s => schedule_id s =? sid)
       (schedules (after_confirm uid sid seat stamp schedule db))
  = Some (with_available_seats (available_seats schedule - 1) schedule).
Proof.
  intros Hs. rewrite find_head_filter. cbn.
  rewrite schedules_by_id_set_seats. unfold schedules_by_id in Hs.
  destruct (filter _ (schedules db)) as [|s0 rest]; [discriminate|].
  simpl in Hs. injection Hs as ->. reflexivity.
Qed.

(** After a granted confirmation the student can view the ticket of the
    new booking: it shows the seat just booked, the student's own data and
    the schedule, bus and route of the booking. *)
Theorem confirm_then_view_ticket :
  forall db sess uid sid seat stamp schedule bus route user,
    keys_ok db ->
    s_user_id sess = Some uid ->
    head (schedules_by_id sid db) = Some schedule ->
    bus_of db schedule = Some bus ->
    route_of db bus = Some route ->
    find (fun u => user_id u =? uid) (users db) = Some user ->
    1 <= seat <= capacity bus ->
    confirmed_on_seat sid seat db = [] ->
    0 < available_seats schedule ->
    view_ticket sess (next_booking_id db)
                (fst (confirm_booking sess sid seat stamp db))
    = (fst (confirm_booking sess sid seat stamp db),
       mkResponse
         (RenderTicket
            (mkTicket (next_booking_id db) (u_student_id user) (u_name user)
                      (u_email user) (u_phone user) seat (bus_number bus)
                      (route_name route) (start_point route) (end_point route)
                      (departure_date schedule) (departure_time schedule)
                      stamp))
         []).
Proof.
  intros db sess uid sid seat stamp schedule bus route user
         Hk Hu Hs Hb Hr Huser Hseat Hfree Hpos.
  rewrite (confirm_booking_granted db sess uid sid seat stamp schedule bus);
    auto.
  cbn [fst]. unfold view_ticket. rewrite Hu.
  unfold guarded, bind, gets. cbv beta.
  assert (Hrow :
    filter (fun b => (booking_id b =? next_booking_id db) && (b_user_id b =? uid)
                     && status_eqb (status b) confirmed)
           (bookings (after_confirm uid sid seat stamp schedule db))
    = [mkBooking (next_booking_id db) uid sid seat confirmed stamp]).
  { cbn. rewrite filter_app. cbn. rewrite !Z.eqb_refl. cbn.
    erewrite filter_ext;
      [rewrite (fresh_booking_absent db
                  (fun b => (b_user_id b =? uid)
                            && status_eqb (status b) confirmed) Hk);
       reflexivity|].
    intros b. cbv beta. now rewrite andb_assoc. }
  rewrite Hrow.
  assert (Hus : user_of (after_confirm uid sid seat stamp schedule db)
                        (mkBooking (next_booking_id db) uid sid seat confirmed stamp)
                = Some user) by exact Huser.
  rewrite Hus. cbn [subscript ret bind].
  assert (Hsc : schedule_of (after_confirm uid sid seat stamp schedule db)
                        (mkBooking (next_booking_id db) uid sid seat confirmed stamp)
                = Some (with_available_seats (available_seats schedule - 1)
                                             schedule)).
  { unfold schedule_of. cbn [b_schedule_id].
    now apply schedule_after_confirm. }
  rewrite Hsc. cbn [subscript ret bind].
  assert (Hbs : bus_of (after_confirm uid sid seat stamp schedule db)
                       (with_available_seats (available_seats schedule - 1)
                                             schedule)
                = Some bus) by exact Hb.
  rewrite Hbs. cbn [subscript ret bind].
  assert (Hrt : route_of (after_confirm uid sid seat stamp schedule db) bus
                = Some route) by exact Hr.
  rewrite Hrt. reflexivity.
Qed.

Lemma confirm_then_view_ticket_witness :
  snd (view_ticket as_alice 1 (fst (confirm_booking as_alice 1 1 (Naive 0) db0)))
  = mkResponse
      (RenderTicket
         (mkTicket 1 "2025000001" "Alice" "alice@student.gitam.edu"
                   "9000000001" 1 "BUS001" "GITAM to Miyapur" "GITAM CAMPUS"
                   "Miyapur" "2025-01-02" "08:30" (Naive 0)))
      [].
Proof.
  assert (Hseat : 1 <= 1 <= capacity bus1) by (simpl; lia).
  assert (Hpos : 0 < available_seats sched1) by (simpl; lia).
  exact (f_equal snd
           (confirm_then_view_ticket db0 as_alice 1 1 1 (Naive 0) sched1 bus1
              route1 alice keys_ok_db0 eq_refl eq_refl eq_refl eq_refl eq_refl
              Hseat eq_refl Hpos)).
Defined.





(** ** Cancellation by someone else *)

(** A student cannot cancel a booking that is not theirs: when no row
    with the booking id carries the caller's user id, the answer is the
    not-found message and nothing is written. *)
Theorem cancel_booking_not_owner :
  forall db sess uid bid now,
    s_user_id sess = Some uid ->
    (forall b, In b (bookings db) -> booking_id b = bid -> b_user_id b <> uid) ->
    cancel_booking sess bid now db
    = (db, respond (Redirect ep_dashboard) BookingNotFound).
Proof.
  intros db sess uid bid now Hu Hnot.
  unfold cancel_booking. rewrite Hu.
  unfold guarded, bind, gets. cbv beta.
  assert (Hnil : filter (fun b => (booking_id b =? bid) && (b_user_id b =? uid))
                        (bookings db) = []).
  { apply filter_nil_iff. intros b Hb.
    destruct (booking_id b =? bid) eqn:E; [|reflexivity].
    apply Z.eqb_eq in E. specialize (Hnot b Hb E).
    apply Z.eqb_neq in Hnot. now rewrite Hnot. }
  rewrite Hnil. reflexivity.
Qed.

Lemma cancel_booking_not_owner_witness :
  cancel_booking as_bob 1 (500 * sec)
                 (fst (confirm_booking as_alice 1 1 (Naive 0) db0))
  = (fst (confirm_booking as_alice 1 1 (Naive 0) db0),
     respond (Redirect ep_dashboard) BookingNotFound).
Proof.
  apply (cancel_booking_not_owner _ as_bob 2 1 (500 * sec)); [reflexivity|].
  intros b Hb Hid. vm_compute in Hb. destruct Hb as [<-|[]]. discriminate.
Defined.

(** ** The counter against the confirmed bookings *)

Lemma consistent_row db s :
  counters_consistent db = true -> In s (schedules db) ->
  exists bus, bus_of db s = Some bus
              /\ available_seats s
                 = capacity bus
                   - Z.of_nat (List.length
                                 (confirmed_on_schedule (schedule_id s) db)).
Proof.
  unfold counters_consistent. rewrite forallb_forall. intros H Hin.
  specialize (H s Hin). destruct (bus_of db s) as [bus|]; [|discriminate].
  exists bus. split; [reflexivity|]. now apply Z.eqb_eq.
Qed.

(** With sound keys, a confirmation keeps every counter equal to the
    capacity of the bus minus the confirmed bookings of the schedule. *)
Theorem confirm_booking_keeps_counters :
  forall db sess sid seat stamp,
    keys_ok db ->
    counters_consistent db = true ->
    counters_consistent (fst (confirm_booking sess sid seat stamp db)) = true.
Proof.
  intros db sess sid seat stamp Hk Hinv.
  destruct (confirm_booking_outcome db sess sid seat stamp)
    as [->|[uid [schedule [bus [_ [Hs [Hb [_ [_ [_ ->]]]]]]]]]]; [exact Hinv|].
  cbn [fst].
  destruct (head_schedule_key sid db schedule Hk Hs) as [Hin [Hid _]].
  unfold counters_consistent. apply forallb_forall. intros s' Hs'.
  cbn [schedules after_confirm] in Hs'. apply in_map_iff in Hs'.
  destruct Hs' as [s [<- Hsin]].
  destruct (consistent_row db s Hinv Hsin) as [b [Hbs Hav]].
  unfold bus_of, confirmed_on_schedule in *. cbn.
  destruct (schedule_id s =? sid) eqn:E; cbn.
  - apply Z.eqb_eq in E.
    assert (s = schedule) as -> by
        (apply (same_id_same_row (schedules db)); auto; [apply Hk | congruence]).
    rewrite Hbs. apply Z.eqb_eq. rewrite filter_app, length_app. cbn.
    rewrite Hid, Z.eqb_refl. cbn. rewrite Hid in Hav. lia.
  - rewrite Hbs. apply Z.eqb_eq. rewrite filter_app, length_app. cbn.
    rewrite Z.eqb_sym, E. cbn. lia.
Qed.

Lemma confirm_booking_keeps_counters_witness :
  counters_consistent db0 = true
  /\ counters_consistent (fst (confirm_booking as_alice 1 1 (Naive 0) db0)) = true.
Proof.
  split; [reflexivity|].
  apply (confirm_booking_keeps_counters db0 as_alice 1 1 (Naive 0) keys_ok_db0).
  reflexivity.
Defined.

Lemma cancel_absent_id bid (l : list Booking) :
  ~ In bid (map booking_id l) ->
  map (fun b => if booking_id b =? bid then with_status cancelled b else b) l
  = l.
Proof.
  intros Hnot. rewrite <- (map_id l) at 2. apply map_ext_in. intros b Hb.
  destruct (booking_id b =? bid) eqn:E; [|reflexivity].
  apply Z.eqb_eq in E. exfalso. apply Hnot. rewrite <- E. now apply in_map.
Qed.

Lemma cancel_count (l : list Booking) (b : Booking) (sid : Z) :
  NoDup (map booking_id l) -> In b l -> status b = confirmed ->
  Z.of_nat (List.length
              (filter (fun x => (b_schedule_id x =? sid)
                                && status_eqb (status x) confirmed) l))
  = Z.of_nat (List.length
                (filter (fun x => (b_schedule_id x =? sid)
                                  && status_eqb (status x) confirmed)
                        (map (fun x => if booking_id x =? booking_id b
                                       then with_status cancelled x else x) l)))
    + (if b_schedule_id b =? sid then 1 else 0).
Proof.
  induction l as [|x l IH]; intros Hnd Hin Hst; [destruct Hin|].
  inversion Hnd as [|? ? Hnotin Hnd']; subst.
  destruct Hin as [->|Hin].
  - cbn [map filter]. rewrite Z.eqb_refl.
    rewrite (cancel_absent_id (booking_id b) l Hnotin).
    cbn [with_status b_schedule_id status status_eqb].
    rewrite andb_false_r, Hst. cbn [status_eqb].
    rewrite andb_true_r.
    destruct (b_schedule_id b =? sid); cbn [List.length]; lia.
  - assert (Hne : booking_id x <> booking_id b).
    { intros Heq. apply Hnotin. rewrite Heq. now apply in_map. }
    apply Z.eqb_neq in Hne. cbn [map filter]. rewrite Hne.
    specialize (IH Hnd' Hin Hst).
    destruct ((b_schedule_id x =? sid) && status_eqb (status x) confirmed);
      cbn [List.length]; lia.
Qed.

(** With sound keys, cancelling a booking that is still confirmed keeps
    every counter equal to the capacity of the bus minus the confirmed
    bookings of the schedule. *)
Theorem cancel_booking_keeps_counters :
  forall db sess bid now,
    keys_ok db ->
    counters_consistent db = true ->
    (forall b, In b (bookings db) -> booking_id b = bid -> status b = confirmed) ->
    counters_consistent (fst (cancel_booking sess bid now db)) = true.
Proof.
  intros db sess bid now Hk Hinv Hconf.
  destruct (cancel_booking_outcome db sess bid now)
    as [->|[uid [booking [t [_ [Hb [_ [_ Hcase]]]]]]]]; [exact Hinv|].
  apply head_filter_In in Hb. destruct Hb as [Hbin Hbp].
  apply andb_true_iff in Hbp. destruct Hbp as [Hbid _].
  apply Z.eqb_eq in Hbid.
  pose proof (Hconf booking Hbin Hbid) as Hst.
  assert (Hnd : NoDup (map booking_id (bookings db))) by apply Hk.
  assert (Hnds : NoDup (map schedule_id (schedules db))) by apply Hk.
  destruct Hcase as [[schedule [Hs ->]]|[Hnone ->]]; cbn [fst].
  - apply head_filter_In in Hs. destruct Hs as [Hsin Hsid].
    apply Z.eqb_eq in Hsid.
    unfold counters_consistent. apply forallb_forall. intros s' Hs'.
    cbn [schedules after_cancel] in Hs'. apply in_map_iff in Hs'.
    destruct Hs' as [s [<- Hin]].
    destruct (consistent_row db s Hinv Hin) as [bus [Hbs Hav]].
    pose proof (cancel_count (bookings db) booking (schedule_id s) Hnd Hbin Hst)
      as Hcount.
    rewrite Hbid in Hcount.
    unfold bus_of, confirmed_on_schedule in *. cbn.
    destruct (schedule_id s =? b_schedule_id booking) eqn:E; cbn.
    + apply Z.eqb_eq in E.
      assert (s = schedule) as -> by
          (apply (same_id_same_row (schedules db)); auto; congruence).
      rewrite Hbs. apply Z.eqb_eq.
      replace (b_schedule_id booking =? schedule_id schedule) with true
        in Hcount by (symmetry; apply Z.eqb_eq; congruence).
      lia.
    + rewrite Hbs. apply Z.eqb_eq.
      replace (b_schedule_id booking =? schedule_id s) with false
        in Hcount by (symmetry; rewrite Z.eqb_sym; exact E).
      lia.
  - unfold counters_consistent. apply forallb_forall. intros s Hin.
    cbn [schedules set_bookings] in Hin.
    destruct (consistent_row db s Hinv Hin) as [bus [Hbs Hav]].
    pose proof (cancel_count (bookings db) booking (schedule_id s) Hnd Hbin Hst)
      as Hcount.
    rewrite Hbid in Hcount.
    assert (E : (b_schedule_id booking =? schedule_id s) = false).
    { apply Z.eqb_neq. intros Heq.
      assert (Hs : In s (schedules_by_id (b_schedule_id booking) db)).
      { apply filter_In. split; [exact Hin|]. apply Z.eqb_eq. congruence. }
      rewrite Hnone in Hs. destruct Hs. }
    rewrite E in Hcount.
    unfold bus_of, confirmed_on_schedule in *. cbn.
    rewrite Hbs. apply Z.eqb_eq. lia.
Qed.

Lemma cancel_booking_keeps_counters_witness :
  let db := fst (confirm_booking as_alice 1 1 (Naive 0) db0) in
  keys_ok db
  /\ counters_consistent db = true
  /\ counters_consistent (fst (cancel_booking as_alice 1 (300 * sec) db)) = true.
Proof.
  cbv zeta.
  assert (Hk : keys_ok (fst (confirm_booking as_alice 1 1 (Naive 0) db0))).
  { apply (keys_ok_handle (ConfirmBooking as_alice 1 1 (Naive 0)) db0).
    exact keys_ok_db0. }
  split; [exact Hk|]. split; [reflexivity|].
  apply (cancel_booking_keeps_counters _ as_alice 1 (300 * sec) Hk);
    [reflexivity|].
  intros b Hb Hid. vm_compute in Hb. destruct Hb as [<-|[]]. reflexivity.
Defined.

Lemma confirm_booking_keeps_range_witness :
  seats_in_range db0 = true
  /\ seats_in_range (fst (confirm_booking as_alice 1 2 (Naive 0) db0)) = true.
Proof.
  split; [reflexivity|].
  apply (confirm_booking_keeps_range as_alice 1 2 (Naive 0) db0);
    [apply keys_ok_db0 | reflexivity].
Defined.

(** ** Registered users *)

Lemma NoDup_snoc {A} (l : list A) (a : A) :
  NoDup l -> ~ In a l -> NoDup (l ++ [a]).
Proof.
  intros Hnd Hnot. apply NoDup_app.
  - exact Hnd.
  - repeat constructor. intros [].
  - intros x Hx [<-|[]]. exact (Hnot Hx).
Qed.

Lemma register_form_ok_user h form db :
  register_form_ok form = true ->
  user_ok (mkUser (next_user_id db) (Py.strip (f_student_id form)) (f_year form)
                  (f_name form) (f_email form) (f_phone form)
                  (h (f_password form)) false).
Proof.
  unfold register_form_ok, user_ok. rewrite !andb_true_iff. cbn.
  intros [[[[[_ Hdom] Hlen] Hdig] _] Hid].
  apply Z.eqb_eq in Hlen. repeat split; assumption.
Qed.

Lemma users_ok_handle r db : users_ok db -> users_ok (fst (handle r db)).
Proof.
  intros Hinv.
  destruct r as [h form|sess sid|sess sid seat stamp|sess bid now
                |sess bus_no d t n|sess sid|sess sid bus_no dt n|sess bid];
    cbn [handle].
  - rewrite register_run.
    destruct (register_form_ok form) eqn:Hform; cbn [andb]; [|exact Hinv].
    destruct (is_empty (same_identity form db)) eqn:Hnew; [|exact Hinv].
    apply is_empty_nil in Hnew. unfold same_identity in Hnew.
    rewrite filter_nil_iff in Hnew.
    destruct Hinv as [Hall [Hids Hmails]].
    cbn [fst]. unfold users_ok, after_register, set_users. cbn [users].
    split; [|split].
    + apply Forall_app. split; [exact Hall|]. repeat constructor; cbn.
      * apply (register_form_ok_user h form db Hform).
      * apply (register_form_ok_user h form db Hform).
      * apply (register_form_ok_user h form db Hform).
      * apply (register_form_ok_user h form db Hform).
    + rewrite map_app. cbn. apply NoDup_snoc; [exact Hids|].
      intros Hin. apply in_map_iff in Hin. destruct Hin as [u [Hu Hin]].
      specialize (Hnew u Hin). apply orb_false_iff in Hnew.
      destruct Hnew as [Hne _]. apply String.eqb_neq in Hne. congruence.
    + rewrite map_app. cbn. apply NoDup_snoc; [exact Hmails|].
      intros Hin. apply in_map_iff in Hin. destruct Hin as [u [Hu Hin]].
      specialize (Hnew u Hin). apply orb_false_iff in Hnew.
      destruct Hnew as [_ Hne]. apply String.eqb_neq in Hne. congruence.
  - rewrite book_seat_reads. exact Hinv.
  - destruct (confirm_booking_outcome db sess sid seat stamp)
      as [->|[uid [schedule [bus [_ [_ [_ [_ [_ [_ ->]]]]]]]]]]; exact Hinv.
  - destruct (cancel_booking_outcome db sess bid now)
      as [->|[uid [booking [t [_ [_ [_ [_ [[schedule [_ ->]]|[_ ->]]]]]]]]]];
      exact Hinv.
  - destruct (create_slot_outcome db sess bus_no d t n)
      as [->|[admin [bus [_ [_ [_ [_ ->]]]]]]]; exact Hinv.
  - rewrite cancel_schedule_run. destruct (s_is_admin sess); exact Hinv.
  - destruct (edit_schedule_outcome db sess sid bus_no dt n)
      as [->|[admin [bus [d [t [_ [_ [_ [_ ->]]]]]]]]]; exact Hinv.
  - rewrite view_ticket_reads. exact Hinv.
Qed.

(** Over any sequence of requests every stored user keeps an email that
    holds the campus domain, a ten-digit phone number, a student id valid for
    the stored year and no admin flag, and no student id and no email is
    stored twice. *)
Theorem users_ok_serve :
  forall rs db, users_ok db -> users_ok (fst (serve rs db)).
Proof.
  induction rs as [|r rs IH]; intros db Hinv; [exact Hinv|].
  rewrite serve_cons. apply IH. now apply users_ok_handle.
Qed.

Lemma users_ok_db0 : users_ok db0.
Proof.
  unfold users_ok, user_ok, db0. cbn [users].
  split; [|split].
  - repeat constructor.
  - repeat constructor; cbn; intuition discriminate.
  - repeat constructor; cbn; intuition discriminate.
Qed.

Lemma users_ok_serve_witness :
  users_ok db0
  /\ users_ok (fst (serve [Register (fun p => p) hostile_form;
                           Register (fun p => p) hostile_form] db0)).
Proof.
  split; [exact users_ok_db0|].
  apply (users_ok_serve _ db0). exact users_ok_db0.
Defined.

(** [register] grants exactly the forms that pass all its tests and name a
    student id and an email no stored user has; it then appends the user
    with the next key.  Every refused form is answered with the registration
    page and writes nothing. *)
Theorem register_granted_iff :
  forall h form db,
    (register_form_ok form = true
     /\ (forall u, In u (users db) ->
           u_student_id u <> Py.strip (f_student_id form)
           /\ u_email u <> f_email form)
     <-> snd (register h form db)
         = respond (Redirect ep_login) RegistrationSuccessful)
    /\ (snd (register h form db)
          = respond (Redirect ep_login) RegistrationSuccessful ->
        fst (register h form db) = after_register h form db)
    /\ (snd (register h form db)
          <> respond (Redirect ep_login) RegistrationSuccessful ->
        fst (register h form db) = db
        /\ body (snd (register h form db)) = RenderRegister).
Proof.
  intros h form db.
  assert (Hnew : is_empty (same_identity form db) = true <->
                 forall u, In u (users db) ->
                   u_student_id u <> Py.strip (f_student_id form)
                   /\ u_email u <> f_email form).
  { rewrite is_empty_nil. unfold same_identity. rewrite filter_nil_iff.
    split; intros H u Hu; specialize (H u Hu).
    - apply orb_false_iff in H. rewrite !String.eqb_neq in H. exact H.
    - apply orb_false_iff. rewrite !String.eqb_neq. exact H. }
  assert (Hrefused :
    register_form_ok form && is_empty (same_identity form db) = false ->
    body (snd (register h form db)) = RenderRegister).
  { unfold register, register_form_ok, same_identity.
    destruct (nonempty (Py.strip (f_student_id form))); cbn [andb negb];
      [|reflexivity].
    destruct (nonempty (f_name form)); cbn [andb negb]; [|reflexivity].
    destruct (f_year form =? 0); cbn [andb negb]; [reflexivity|].
    destruct (nonempty (f_email form)); cbn [andb negb]; [|reflexivity].
    destruct (nonempty (f_phone form)); cbn [andb negb]; [|reflexivity].
    destruct (nonempty (f_password form)); cbn [andb negb]; [|reflexivity].
    destruct (Py.contains "@student.gitam.edu" (f_email form));
      cbn [andb negb]; [|reflexivity].
    destruct (Py.len (f_phone form) =? 10); cbn [andb negb orb]; [|reflexivity].
    destruct (Py.str_isdigit (f_phone form)); cbn [andb negb orb];
      [|reflexivity].
    destruct (password_ok (f_password form)); cbn [andb negb]; [|reflexivity].
    destruct (valid_student_id (f_year form) (Py.strip (f_student_id form)));
      cbn [andb negb]; [|reflexivity].
    unfold guarded, bind, gets. cbv beta.
    destruct (filter _ (users db)); [discriminate | reflexivity]. }
  pose proof (register_run h form db) as Hrun.
  destruct (register_form_ok form && is_empty (same_identity form db)) eqn:E.
  - rewrite Hrun. cbn [fst snd]. apply andb_true_iff in E.
    destruct E as [E1 E2]. split; [|split].
    + split; [reflexivity|]. intros _. split; [exact E1 | now apply Hnew].
    + reflexivity.
    + intros H. exfalso. apply H. reflexivity.
  - specialize (Hrefused eq_refl). split; [|split].
    + split.
      * intros [H1 H2]. apply Hnew in H2. rewrite H1, H2 in E. discriminate.
      * intros H. rewrite H in Hrefused. discriminate.
    + intros H. rewrite H in Hrefused. discriminate.
    + intros _. split; [|exact Hrefused]. rewrite Hrun. reflexivity.
Qed.

Lemma register_granted_iff_witness :
  fst (register (fun p => p) hostile_form db0)
  = after_register (fun p => p) hostile_form db0.
Proof.
  apply (proj1 (proj2 (register_granted_iff (fun p => p) hostile_form db0))).
  reflexivity.
Defined.

(** ** Student ids *)

Lemma fullmatch_length classes s :
  Py.fullmatch classes s = true ->
  String.length s = List.length classes.
Proof.
  revert s. induction classes as [|p ps IH]; intros [|c r]; cbn;
    try discriminate; [reflexivity|].
  intros H. apply andb_true_iff in H. destruct H as [_ H].
  now rewrite (IH r H).
Qed.

Lemma valid_student_id_cases y s :
  valid_student_id y s = true ->
  (y = 1 /\ Py.startswith s "2025" = true /\ Py.len s = 10)
  \/ (y = 2 /\ Py.startswith s "2024" = true /\ Py.len s = 10)
  \/ (y = 3 /\ Py.startswith s "2023" = true /\ Py.len s = 10)
  \/ (y = 4 /\ Py.startswith s "HU22" = true /\ Py.len s = 15).
Proof.
  unfold valid_student_id.
  destruct (y =? 1) eqn:E1; [apply Z.eqb_eq in E1; subst; cbn|].
  { destruct (Py.str_isdigit s && (Py.len s =? 10)) eqn:E; [|discriminate].
    apply andb_true_iff in E. destruct E as [_ E]. apply Z.eqb_eq in E.
    rewrite !orb_false_r. intros H. left. auto. }
  destruct (y =? 2) eqn:E2; [apply Z.eqb_eq in E2; subst; cbn|].
  { destruct (Py.str_isdigit s && (Py.len s =? 10)) eqn:E; [|discriminate].
    apply andb_true_iff in E. destruct E as [_ E]. apply Z.eqb_eq in E.
    rewrite !orb_false_r. intros H. right; left. auto. }
  destruct (y =? 3) eqn:E3; [apply Z.eqb_eq in E3; subst; cbn|].
  { destruct (Py.str_isdigit s && (Py.len s =? 10)) eqn:E; [|discriminate].
    apply andb_true_iff in E. destruct E as [_ E]. apply Z.eqb_eq in E.
    intros H. right; right; left. auto. }
  cbn [orb]. destruct (y =? 4) eqn:E4; [|discriminate].
  apply Z.eqb_eq in E4. subst. intros H. right; right; right.
  split; [reflexivity|]. split.
  - unfold year4_pattern in H.
    destruct s as [|c1 [|c2 [|c3 [|c4 r]]]];
      cbn [Py.fullmatch app] in H; rewrite ?andb_false_r in H;
      try discriminate H.
    unfold Py.lit in H. rewrite !andb_true_iff in H.
    destruct H as [H1 [H2 [H3 [H4 _]]]].
    apply Ascii.eqb_eq in H1, H2, H3, H4. subst.
    apply prefix_app. exists r. reflexivity.
  - apply fullmatch_length in H. unfold Py.len. rewrite H. reflexivity.
Qed.

(** A student id is valid for at most one year, and a valid id has ten
    characters (years 1 to 3) or fifteen (year 4): the year a student may
    claim at login is fixed by the id. *)
Theorem student_id_fixes_year :
  forall y1 y2 s,
    valid_student_id y1 s = true ->
    valid_student_id y2 s = true ->
    y1 = y2 /\ Py.len s = (if y1 =? 4 then 15 else 10).
Proof.
  intros y1 y2 s H1 H2.
  apply valid_student_id_cases in H1, H2.
  unfold Py.startswith in *.
  destruct H1 as [[-> [P1 L1]]|[[-> [P1 L1]]|[[-> [P1 L1]]|[-> [P1 L1]]]]];
    (split; [|exact L1]);
    destruct H2 as [[-> [P2 L2]]|[[-> [P2 L2]]|[[-> [P2 L2]]|[-> [P2 L2]]]]];
    try reflexivity; exfalso;
    apply prefix_app in P1, P2; destruct P1 as [q1 Q1], P2 as [q2 Q2];
    rewrite Q1 in Q2; discriminate Q2.
Qed.

Lemma student_id_fixes_year_witness :
  valid_student_id 2 "2024123456" = true
  /\ 2 = 2 /\ Py.len "2024123456" = 10.
Proof.
  split; [reflexivity|].
  apply (student_id_fixes_year 2 2 "2024123456"); reflexivity.
Defined.

(** ** Editing a schedule *)

Lemma split_once_spec sep s a b :
  Py.split_once sep s = Some (a, b) <->
  s = a ++ String sep b
  /\ Py.char_in a sep = false /\ Py.char_in b sep = false.
Proof.
  revert a. induction s as [|c s IH]; intros a; cbn [Py.split_once].
  - split; [discriminate|]. intros [H _]. destruct a; discriminate.
  - destruct (Ascii.eqb c sep) eqn:E.
    + apply Ascii.eqb_eq in E. subst c.
      destruct (Py.char_in s sep) eqn:Hs.
      * split; [discriminate|]. intros [H [Ha Hb]].
        destruct a as [|x a]; cbn in H.
        -- injection H as ->. congruence.
        -- injection H as <- _. unfold Py.char_in in Ha. cbn in Ha.
           rewrite Ascii.eqb_refl in Ha. discriminate.
      * split.
        -- intros H. injection H as <- <-. repeat split; auto.
        -- intros [H [Ha Hb]]. destruct a as [|x a]; cbn in H.
           ++ injection H as ->. reflexivity.
           ++ injection H as <- _. unfold Py.char_in in Ha. cbn in Ha.
              rewrite Ascii.eqb_refl in Ha. discriminate.
    + destruct (Py.split_once sep s) as [[a' b']|] eqn:Hrec.
      * split.
        -- intros H. injection H as <- <-.
           destruct (proj1 (IH a') eq_refl) as [-> [Ha Hb]].
           repeat split; auto.
           unfold Py.char_in in *. cbn. rewrite Ascii.eqb_sym, E. exact Ha.
        -- intros [H [Ha Hb]]. destruct a as [|x a]; cbn in H.
           ++ injection H as -> _. rewrite Ascii.eqb_refl in E. discriminate.
           ++ injection H as <- H.
              assert (Ha' : Py.char_in a sep = false).
              { unfold Py.char_in in *. cbn in Ha.
                apply orb_false_iff in Ha. tauto. }
              pose proof (proj2 (IH a) (conj H (conj Ha' Hb))) as Hab.
              injection Hab as <- <-. reflexivity.
      * split; [discriminate|]. intros [H [Ha Hb]].
        destruct a as [|x a]; cbn in H.
        -- injection H as -> _. rewrite Ascii.eqb_refl in E. discriminate.
        -- injection H as <- H.
           assert (Ha' : Py.char_in a sep = false).
           { unfold Py.char_in in *. cbn in Ha.
             apply orb_false_iff in Ha. tauto. }
           pose proof (proj2 (IH a) (conj H (conj Ha' Hb))). discriminate.
Qed.

Lemma schedules_by_id_after_edit admin sid bus d t n db :
  schedules_by_id sid (after_edit admin sid bus d t n db)
  = map (fun s => mkSchedule (schedule_id s) (bus_id bus) d t n
                             (sched_status s) (created_by_admin s) (Some admin))
        (schedules_by_id sid db).
Proof.
  unfold schedules_by_id. cbn.
  induction (schedules db) as [|s l IH]; cbn; [reflexivity|].
  destruct (schedule_id s =? sid) eqn:E; cbn; rewrite E, IH; reflexivity.
Qed.

Lemma other_schedules_after_edit admin sid sid' bus d t n db :
  sid' <> sid ->
  schedules_by_id sid' (after_edit admin sid bus d t n db)
  = schedules_by_id sid' db.
Proof.
  intros Hne. unfold schedules_by_id. cbn.
  induction (schedules db) as [|s l IH]; cbn; [reflexivity|].
  destruct (schedule_id s =? sid) eqn:E; cbn; rewrite IH; [|reflexivity].
  apply Z.eqb_eq in E.
  replace (schedule_id s =? sid') with false
    by (symmetry; apply Z.eqb_neq; congruence).
  reflexivity.
Qed.

(** What an admin saves with [edit_schedule] is what the edit form shows
    afterwards: the bus number, the departure text as it was typed and the
    seat count.  The bookings and the other schedules are left alone. *)
Theorem edit_then_form :
  forall db sess admin sid bus_no dt n bus route schedule d t,
    s_is_admin sess = true ->
    s_admin_id sess = Some admin ->
    head (buses_by_number bus_no db) = Some bus ->
    find (fun b => bus_id b =? bus_id bus) (buses db) = Some bus ->
    route_of db bus = Some route ->
    head (schedules_by_id sid db) = Some schedule ->
    Py.split_once "T" dt = Some (d, t) ->
    let db' := fst (edit_schedule sess sid bus_no dt n db) in
    snd (edit_schedule sess sid bus_no dt n db)
      = respond (Redirect ep_admin_panel) ScheduleUpdated
    /\ edit_schedule_form [] sid db'
       = (db', mkResponse
                 (RenderEditSchedule
                    (mkEditForm sid bus_no (route_name route) dt n)) [])
    /\ bookings db' = bookings db
    /\ (forall sid', sid' <> sid ->
          schedules_by_id sid' db' = schedules_by_id sid' db).
Proof.
  intros db sess admin sid bus_no dt n bus route schedule d t
         Ha Hid Hbus Hkey Hroute Hs Hsplit. cbv zeta.
  assert (Hrun : edit_schedule sess sid bus_no dt n db
                 = (after_edit admin sid bus d t n db,
                    respond (Redirect ep_admin_panel) ScheduleUpdated)).
  { unfold edit_schedule. rewrite Ha. cbn [negb].
    unfold edit_schedule_post, bind, gets. cbv beta.
    destruct (buses_by_number bus_no db) as [|b0 rest]; [discriminate|].
    simpl in Hbus. injection Hbus as ->.
    rewrite Hsplit, Hid. reflexivity. }
  rewrite Hrun. cbn [fst snd].
  split; [reflexivity|]. split; [|split; [reflexivity|]].
  - unfold edit_schedule_form, guarded, bind, gets. cbv beta.
    rewrite schedules_by_id_after_edit.
    pose proof Hs as Hs'. apply head_filter_In in Hs'.
    destruct Hs' as [_ Hsid]. apply Z.eqb_eq in Hsid.
    apply head_filter_In in Hbus. destruct Hbus as [_ Hno].
    apply String.eqb_eq in Hno.
    destruct (schedules_by_id sid db) as [|s0 rest]; [discriminate|].
    simpl in Hs. injection Hs as ->. cbn [map].
    assert (Hb : bus_of (after_edit admin sid bus d t n db)
                   (mkSchedule (schedule_id schedule) (bus_id bus) d t n
                               (sched_status schedule)
                               (created_by_admin schedule) (Some admin))
                 = Some bus) by exact Hkey.
    rewrite Hb. cbn [subscript ret bind].
    assert (Hr : route_of (after_edit admin sid bus d t n db) bus = Some route)
      by exact Hroute.
    rewrite Hr. cbn [subscript ret bind].
    apply split_once_spec in Hsplit. destruct Hsplit as [-> _].
    cbn. rewrite Hsid, Hno. reflexivity.
  - intros sid' Hne. now apply other_schedules_after_edit.
Qed.

Lemma edit_then_form_witness :
  snd (edit_schedule_form [] 1
         (fst (edit_schedule as_admin 1 "BUS001" "2025-02-03T09:15" 2 db0)))
  = mkResponse
      (RenderEditSchedule
         (mkEditForm 1 "BUS001" "GITAM to Miyapur" "2025-02-03T09:15" 2)) [].
Proof.
  pose proof (edit_then_form db0 as_admin 1 1 "BUS001" "2025-02-03T09:15" 2
                bus1 route1 sched1 "2025-02-03" "09:15"
                eq_refl eq_refl eq_refl eq_refl eq_refl eq_refl eq_refl)
    as [_ [H _]].
  exact (f_equal snd H).
Defined.

(** Edge cases of [edit_schedule] for an admin: an unknown bus number is
    refused and nothing is written; a departure text without exactly one
    ['T'] writes nothing and the handler goes on to show the form with the
    error message; an id that no schedule has is answered as updated, changes
    no schedule and still adds a row to the activity log. *)
Theorem edit_schedule_edges :
  forall db sess sid bus_no dt n,
    s_is_admin sess = true ->
    (buses_by_number bus_no db = [] ->
     edit_schedule sess sid bus_no dt n db
     = (db, respond (Redirect ep_manage_buses) BusNotFound))
    /\ (buses_by_number bus_no db <> [] ->
        Py.split_once "T" dt = None ->
        edit_schedule sess sid bus_no dt n db
        = edit_schedule_form [ErrorFlash] sid db
        /\ fst (edit_schedule sess sid bus_no dt n db) = db)
    /\ (forall admin,
          s_admin_id sess = Some admin ->
          buses_by_number bus_no db <> [] ->
          Py.split_once "T" dt <> None ->
          schedules_by_id sid db = [] ->
          snd (edit_schedule sess sid bus_no dt n db)
            = respond (Redirect ep_admin_panel) ScheduleUpdated
          /\ schedules (fst (edit_schedule sess sid bus_no dt n db))
             = schedules db
          /\ admin_activity_log (fst (edit_schedule sess sid bus_no dt n db))
             = (admin_activity_log db ++ [mkActivity admin act_update sid])%list).
Proof.
  intros db sess sid bus_no dt n Ha.
  unfold edit_schedule. rewrite Ha. cbn [negb].
  unfold edit_schedule_post, bind, gets. cbv beta.
  split; [|split].
  - intros ->. reflexivity.
  - intros Hbus Hsplit.
    destruct (buses_by_number bus_no db) as [|bus rest]; [congruence|].
    rewrite Hsplit. cbn [subscript raise]. split; [reflexivity|].
    apply edit_schedule_form_reads.
  - intros admin Hid Hbus Hsplit Hnone.
    destruct (buses_by_number bus_no db) as [|bus rest]; [congruence|].
    destruct (Py.split_once "T" dt) as [[d t]|]; [|congruence].
    rewrite Hid. cbn.
    split; [reflexivity|]. split; [|reflexivity].
    unfold schedules_by_id in Hnone. rewrite filter_nil_iff in Hnone.
    rewrite <- (map_id (schedules db)) at 2. apply map_ext_in.
    intros s Hs. now rewrite (Hnone s Hs).
Qed.

Lemma edit_schedule_edges_witness :
  edit_schedule as_admin 1 "BUS001" "2025-02-03 09:15" 2 db0
  = edit_schedule_form [ErrorFlash] 1 db0
  /\ fst (edit_schedule as_admin 1 "BUS001" "2025-02-03 09:15" 2 db0) = db0.
Proof.
  apply (proj1 (proj2 (edit_schedule_edges db0 as_admin 1 "BUS001"
                         "2025-02-03 09:15" 2 eq_refl)));
    [vm_compute; discriminate | reflexivity].
Defined.

(** ** Deleting and creating schedules, then booking *)

(** Once an admin has deleted a schedule, no seat of it can be booked: the
    confirmation answers that the schedule is not found; the seat picker
    answers that no seats are available, or, to a caller who still holds a
    confirmed booking on the deleted schedule, that they already have a
    booking; neither writes, and deleting the schedule again changes
    nothing. *)
Theorem deleted_schedule_unbookable :
  forall db admin_sess sess uid sid seat stamp,
    s_is_admin admin_sess = true ->
    s_user_id sess = Some uid ->
    let db' := fst (cancel_schedule admin_sess sid db) in
    confirm_booking sess sid seat stamp db'
      = (db', respond (Redirect ep_dashboard) ScheduleNotFound)
    /\ book_seat sess sid db'
       = (db', respond (Redirect ep_dashboard)
                       (if is_empty (confirmed_of_user uid sid db)
                        then NoSeatsAvailable else AlreadyBooked))
    /\ cancel_schedule admin_sess sid db'
       = (db', respond (Redirect ep_manage_buses) ScheduleCancelled).
Proof.
  intros db admin_sess sess uid sid seat stamp Ha Hu. cbv zeta.
  rewrite cancel_schedule_run, Ha. cbn [fst].
  assert (Hgone : schedules_by_id sid (after_delete sid db) = []).
  { unfold schedules_by_id, after_delete. cbn.
    apply (filter_complement (fun s => schedule_id s =? sid)). }
  split; [|split].
  - unfold confirm_booking. rewrite Hu.
    unfold guarded, bind, gets. cbv beta. rewrite Hgone. reflexivity.
  - unfold book_seat. rewrite Hu.
    unfold guarded, bind, gets. cbv beta.
    change (confirmed_of_user uid sid (after_delete sid db))
      with (confirmed_of_user uid sid db).
    destruct (confirmed_of_user uid sid db) as [|x xs]; cbn [is_empty negb].
    + rewrite Hgone. reflexivity.
    + reflexivity.
  - rewrite cancel_schedule_run, Ha. unfold after_delete, set_schedules. cbn.
    rewrite filter_twice. reflexivity.
Qed.

Lemma deleted_schedule_unbookable_witness :
  confirm_booking as_alice 1 1 (Naive 0) (fst (cancel_schedule as_admin 1 db0))
    = (fst (cancel_schedule as_admin 1 db0),
       respond (Redirect ep_dashboard) ScheduleNotFound)
  /\ book_seat as_alice 1 db_orphan
     = (db_orphan, respond (Redirect ep_dashboard) AlreadyBooked).
Proof.
  split.
  - apply (proj1 (deleted_schedule_unbookable db0 as_admin as_alice 1 1 1
                    (Naive 0) eq_refl eq_refl)).
  - exact (proj1 (proj2 (deleted_schedule_unbookable
                           (fst (confirm_booking as_alice 1 1 (Naive 0) db0))
                           as_admin as_alice 1 1 1 (Naive 0) eq_refl eq_refl))).
Defined.

(** With sound keys, a schedule created with a positive seat count on a
    bus is bookable at once: a student's confirmation for any seat from 1 to
    the capacity of the bus is granted and leaves the count less one. *)
Theorem created_schedule_bookable :
  forall db admin_sess admin sess uid bus_no d t n bus seat stamp,
    keys_ok db ->
    s_is_admin admin_sess = true ->
    s_admin_id admin_sess = Some admin ->
    s_user_id sess = Some uid ->
    head (buses_by_number bus_no db) = Some bus ->
    find (fun b => bus_id b =? bus_id bus) (buses db) = Some bus ->
    0 < n <= capacity bus ->
    1 <= seat <= capacity bus ->
    let db1 := fst (create_slot admin_sess bus_no d t n db) in
    let r := confirm_booking sess (next_schedule_id db) seat stamp db1 in
    booking_accepted (snd r)
    /\ map available_seats (schedules_by_id (next_schedule_id db) (fst r))
       = [n - 1].
Proof.
  intros db admin_sess admin sess uid bus_no d t n bus seat stamp
         Hk Ha Hid Hu Hbus Hkey Hn Hseat. cbv zeta.
  assert (Hrun : create_slot admin_sess bus_no d t n db
                 = (after_create admin bus d t n db,
                    respond (Redirect ep_admin_panel) ScheduleCreated)).
  { unfold create_slot. rewrite Ha. cbn [negb].
    unfold guarded, bind, gets. cbv beta.
    destruct (buses_by_number bus_no db) as [|b0 rest]; [discriminate|].
    simpl in Hbus. injection Hbus as ->.
    replace (n >? capacity bus) with false
      by (symmetry; rewrite Z.gtb_ltb; apply Z.ltb_ge; lia).
    rewrite Hid. reflexivity. }
  rewrite Hrun. cbn [fst].
  set (row := mkSchedule (next_schedule_id db) (bus_id bus) d t n "active"
                         (Some admin) None).
  destruct Hk as [_ [[_ Hslt] [_ Hrefs]]].
  assert (Hsel : schedules_by_id (next_schedule_id db)
                                 (after_create admin bus d t n db) = [row]).
  { unfold schedules_by_id. cbn. rewrite filter_app. cbn.
    rewrite Z.eqb_refl.
    replace (filter _ (schedules db)) with (@nil Schedule); [reflexivity|].
    symmetry. apply filter_nil_iff. intros s Hs.
    rewrite Forall_forall in Hslt. specialize (Hslt s Hs). cbv beta in Hslt.
    apply Z.eqb_neq. lia. }
  assert (Hfree : confirmed_on_seat (next_schedule_id db) seat
                                    (after_create admin bus d t n db) = []).
  { unfold confirmed_on_seat. cbn. apply filter_nil_iff. intros b Hb.
    rewrite Forall_forall in Hrefs. specialize (Hrefs b Hb). cbv beta in Hrefs.
    replace (b_schedule_id b =? next_schedule_id db) with false
      by (symmetry; apply Z.eqb_neq; lia).
    reflexivity. }
  rewrite (confirm_booking_granted (after_create admin bus d t n db) sess uid
             (next_schedule_id db) seat stamp row bus);
    auto; [| rewrite Hsel; reflexivity | cbn; lia].
  cbn [fst snd]. split; [reflexivity|].
  unfold schedules_by_id in *. cbn [schedules after_confirm].
  rewrite schedules_by_id_set_seats, Hsel. reflexivity.
Qed.

Lemma created_schedule_bookable_witness :
  booking_accepted
    (snd (confirm_booking as_alice 2 2 (Naive 0)
            (fst (create_slot as_admin "BUS001" "2025-03-01" "07:00" 1 db0)))).
Proof.
  assert (Hn : 0 < 1 <= capacity bus1) by (simpl; lia).
  assert (Hseat : 1 <= 2 <= capacity bus1) by (simpl; lia).
  exact (proj1 (created_schedule_bookable db0 as_admin 1 as_alice 1 "BUS001"
                  "2025-03-01" "07:00" 1 bus1 2 (Naive 0) keys_ok_db0
                  eq_refl eq_refl eq_refl eq_refl eq_refl Hn Hseat)).
Defined.

(** ** The admin listing of bookings *)

Lemma str_ltb_irrefl a : String.ltb a a = false.
Proof.
  unfold String.ltb.
  replace (String.compare a a) with Eq; [reflexivity|].
  symmetry. now apply OrderedTypeEx.String_as_OT.cmp_eq.
Qed.

Lemma str_ltb_trans a b c :
  String.ltb a b = true -> String.ltb b c = true -> String.ltb a c = true.
Proof.
  unfold String.ltb. intros Hab Hbc.
  destruct (String.compare a b) eqn:Eab; try discriminate.
  destruct (String.compare b c) eqn:Ebc; try discriminate.
  apply OrderedTypeEx.String_as_OT.cmp_lt in Eab, Ebc.
  pose proof (OrderedTypeEx.String_as_OT.lt_trans _ _ _ Eab Ebc) as Hac.
  apply OrderedTypeEx.String_as_OT.cmp_lt in Hac.
  unfold OrderedTypeEx.String_as_OT.cmp in Hac. now rewrite Hac.
Qed.

Lemma str_cases a b :
  (String.ltb a b = true /\ String.eqb a b = false /\ String.ltb b a = false)
  \/ a = b
  \/ (String.ltb b a = true /\ String.eqb a b = false /\ String.ltb a b = false).
Proof.
  unfold String.ltb. rewrite (String.compare_antisym b a).
  destruct (String.compare a b) eqn:E; cbn.
  - right; left. now apply OrderedTypeEx.String_as_OT.cmp_eq.
  - left. repeat split. apply String.eqb_neq. intros ->.
    assert (H : String.compare b b = Eq)
      by now apply OrderedTypeEx.String_as_OT.cmp_eq.
    congruence.
  - right; right. repeat split. apply String.eqb_neq. intros ->.
    assert (H : String.compare b b = Eq)
      by now apply OrderedTypeEx.String_as_OT.cmp_eq.
    congruence.
Qed.

Lemma tuple_lt_cases a b :
  tuple_lt a b = true <->
  String.ltb (fst a) (fst b) = true
  \/ (fst a = fst b /\ String.ltb (snd a) (snd b) = true).
Proof.
  unfold tuple_lt.
  destruct (str_cases (fst a) (fst b)) as [[H1 [H2 H3]]|[H|[H1 [H2 H3]]]].
  - rewrite H2, H1. split; [now left | reflexivity].
  - rewrite H, String.eqb_refl, str_ltb_irrefl. split; [now right|].
    intros [Hf|[_ Hs]]; [discriminate | exact Hs].
  - rewrite H2, H3. split; [discriminate|].
    intros [Hf|[He _]]; [discriminate|].
    rewrite He, String.eqb_refl in H2. discriminate.
Qed.

Lemma tuple_lt_irrefl a : tuple_lt a a = false.
Proof.
  unfold tuple_lt. now rewrite String.eqb_refl, str_ltb_irrefl.
Qed.

(** If [c < a] then any [b] has [c < b] or [b < a]. *)
Lemma tuple_lt_between a b c :
  tuple_lt c a = true -> tuple_lt c b = true \/ tuple_lt b a = true.
Proof.
  rewrite !tuple_lt_cases.
  destruct a as [a1 a2], b as [b1 b2], c as [c1 c2]. cbn [fst snd].
  intros [H|[-> H]].
  - destruct (str_cases c1 b1) as [[L _]|[->|[L _]]].
    + left; now left.
    + right; now left.
    + right; left. now apply (str_ltb_trans b1 c1 a1).
  - destruct (str_cases a1 b1) as [[L _]|[->|[L _]]].
    + left; now left.
    + destruct (str_cases c2 b2) as [[L _]|[->|[L _]]].
      * left; right. now split.
      * right; right. now split.
      * right; right. split; [reflexivity|].
        now apply (str_ltb_trans b2 c2 a2).
    + right; now left.
Qed.

Lemma line_le_trans a b c : line_le a b -> line_le b c -> line_le a c.
Proof.
  unfold line_le. intros Hab Hbc.
  destruct (tuple_lt (line_key c) (line_key a)) eqn:E; [|reflexivity].
  destruct (tuple_lt_between _ (line_key b) _ E); congruence.
Qed.

Lemma tuple_lt_asym a b : tuple_lt a b = true -> tuple_lt b a = false.
Proof.
  intros H. destruct (tuple_lt b a) eqn:E; [|reflexivity].
  apply tuple_lt_cases in H, E.
  destruct a as [a1 a2], b as [b1 b2]. cbn [fst snd] in *.
  destruct H as [H|[-> H]], E as [E|[E1 E]].
  - pose proof (str_ltb_trans _ _ _ H E) as F.
    rewrite str_ltb_irrefl in F. discriminate.
  - subst. rewrite str_ltb_irrefl in H. discriminate.
  - rewrite str_ltb_irrefl in E. discriminate.
  - pose proof (str_ltb_trans _ _ _ H E) as F.
    rewrite str_ltb_irrefl in F. discriminate.
Qed.

Lemma line_lt_le a b :
  tuple_lt (line_key a) (line_key b) = true -> line_le a b.
Proof. unfold line_le. apply tuple_lt_asym. Qed.

Lemma insert_line_perm x l : Permutation (x :: l) (insert_line x l).
Proof.
  induction l as [|y l IH]; cbn; [reflexivity|].
  destruct (tuple_lt (line_key x) (line_key y)); [reflexivity|].
  rewrite perm_swap. now constructor.
Qed.

Lemma insert_line_sorted x l :
  StronglySorted line_le l -> StronglySorted line_le (insert_line x l).
Proof.
  induction l as [|y l IH]; cbn; intros Hs; [repeat constructor|].
  inversion Hs as [|? ? Hl Hy]; subst.
  destruct (tuple_lt (line_key x) (line_key y)) eqn:E.
  - constructor; [exact Hs|]. constructor; [now apply line_lt_le|].
    eapply Forall_impl; [|exact Hy]. intros z Hz.
    apply (line_le_trans x y z); [apply line_lt_le; exact E | exact Hz].
  - constructor; [now apply IH|].
    eapply Permutation_Forall; [apply insert_line_perm|].
    constructor; [exact E | exact Hy].
Qed.

Lemma sort_lines_from acc l :
  StronglySorted line_le acc ->
  Permutation (acc ++ l) (fold_left (fun a x => insert_line x a) l acc)
  /\ StronglySorted line_le (fold_left (fun a x => insert_line x a) l acc).
Proof.
  revert acc. induction l as [|x l IH]; intros acc Hs; cbn.
  - rewrite app_nil_r. split; [reflexivity | exact Hs].
  - destruct (IH (insert_line x acc) (insert_line_sorted x acc Hs)) as [Hp Hq].
    split; [|exact Hq].
    transitivity ((x :: acc) ++ l)%list.
    { symmetry. apply Permutation_middle. }
    transitivity (insert_line x acc ++ l)%list; [|exact Hp].
    apply Permutation_app_tail. apply insert_line_perm.
Qed.

Lemma lines_of_some db bs lines :
  lines_of db bs = Some lines -> map Some lines = map (line_of db) bs.
Proof.
  revert lines. induction bs as [|b bs IH]; cbn; intros lines H.
  - injection H as <-. reflexivity.
  - destruct (line_of db b) as [line|]; [|discriminate].
    destruct (lines_of db bs) as [ls|]; [|discriminate].
    injection H as <-. cbn. now rewrite (IH ls eq_refl).
Qed.

Lemma lines_of_none db bs b :
  In b bs -> line_of db b = None -> lines_of db bs = None.
Proof.
  induction bs as [|x bs IH]; cbn; [tauto|].
  intros [->|Hin] Hnone.
  - now rewrite Hnone.
  - destruct (line_of db x); [|reflexivity]. now rewrite (IH Hin Hnone).
Qed.

(** When the admin listing comes without an error message, it holds one
    line for every confirmed booking and no other (as a multiset), and the
    lines are in ascending order of (departure date, departure time). *)
Theorem all_bookings_sorted :
  forall db sess rows,
    all_bookings sess db = ListingPage rows [] ->
    Permutation (map Some rows) (map (line_of db) (confirmed_bookings db))
    /\ StronglySorted line_le rows.
Proof.
  intros db sess rows. unfold all_bookings.
  destruct (negb (s_is_admin sess)); [discriminate|].
  destruct (lines_of db (confirmed_bookings db)) as [lines|] eqn:E;
    [|discriminate].
  intros H. injection H as <-.
  destruct (sort_lines_from [] lines (SSorted_nil _)) as [Hp Hs].
  split; [|exact Hs].
  rewrite <- (lines_of_some db _ lines E).
  apply Permutation_map. symmetry. exact Hp.
Qed.

(** One confirmed booking whose schedule row is gone blanks the whole
    admin listing: the page comes with no line at all and the error
    message. *)
Theorem all_bookings_orphan :
  forall db sess b,
    s_is_admin sess = true ->
    In b (bookings db) ->
    status b = confirmed ->
    schedule_of db b = None ->
    all_bookings sess db = ListingPage [] [ErrorFlash].
Proof.
  intros db sess b Ha Hin Hst Hnone. unfold all_bookings. rewrite Ha. cbn [negb].
  assert (Hline : line_of db b = None).
  { unfold line_of. rewrite Hnone. destruct (user_of db b); reflexivity. }
  assert (Hb : In b (confirmed_bookings db)).
  { apply filter_In. split; [exact Hin|]. now rewrite Hst. }
  now rewrite (lines_of_none db _ b Hb Hline).
Qed.

Lemma all_bookings_sorted_witness :
  exists rows,
    all_bookings as_admin (fst (serve two_seats db0)) = ListingPage rows []
    /\ StronglySorted line_le rows.
Proof.
  pose proof (all_bookings_sorted (fst (serve two_seats db0)) as_admin _ eq_refl)
    as [_ H].
  eexists. split; [reflexivity | exact H].
Defined.

Lemma all_bookings_orphan_witness :
  all_bookings as_admin db_orphan = ListingPage [] [ErrorFlash].
Proof.
  apply (all_bookings_orphan db_orphan as_admin
           (mkBooking 1 1 1 1 confirmed (Naive 0)));
    [reflexivity | vm_compute; now left | reflexivity | reflexivity].
Defined.

(** ** Logging in and out *)

Lemma captcha_ok_new n1 n2 c :
  captcha_ok (new_captcha n1 n2 c) (str_of_int (n1 + n2)) = true.
Proof. unfold captcha_ok, new_captcha. cbn. apply String.eqb_refl. Qed.

Lemma login_outcome check form c db :
  (exists user,
      login check form c db
      = (logged_in user c, mkAuthResponse (GoTo ep_dashboard) [LoginSuccessful]))
  \/ (fst (login check form c db) = c
      /\ a_body (snd (login check form c db)) = RenderLogin
      /\ a_flashes (snd (login check form c db)) <> [LoginSuccessful]).
Proof.
  unfold login.
  destruct (negb (captcha_ok c (lf_captcha_answer form)));
    [right; repeat split; discriminate|].
  destruct (negb (valid_student_id (lf_year form)
                                   (Py.strip (lf_student_id form))));
    [right; repeat split; discriminate|].
  destruct (filter _ (users db)) as [|user rest];
    [right; repeat split; discriminate|].
  destruct (check (u_password_hash user) (lf_password form));
    [|right; repeat split; discriminate].
  left. exists user. reflexivity.
Qed.

(** A challenge is spent by the login it admits: on the session left by a
    granted login every further attempt, whatever it submits, is answered
    with the incorrect-CAPTCHA message.  A refused attempt leaves the session
    as it was, challenge included. *)
Theorem login_captcha_use :
  forall check form c db,
    (a_flashes (snd (login check form c db)) = [LoginSuccessful] ->
     forall form',
       login check form' (fst (login check form c db)) db
       = (fst (login check form c db),
          mkAuthResponse RenderLogin [IncorrectCaptcha]))
    /\ (a_flashes (snd (login check form c db)) <> [LoginSuccessful] ->
        fst (login check form c db) = c
        /\ a_body (snd (login check form c db)) = RenderLogin).
Proof.
  intros check form c db.
  destruct (login_outcome check form c db) as [[user ->]|[Hc [Hb Hf]]].
  - cbn [fst snd a_flashes]. split.
    + intros _ form'. reflexivity.
    + intros H. exfalso. apply H. reflexivity.
  - split; [intros H; contradiction | intros _; split; assumption].
Qed.

(** A student who has just registered can log in: with the password of the
    form, the year of the form and the sum shown by the challenge, [login]
    opens a session for the new user (given that the hash of a password
    verifies against that password). *)
Theorem register_then_login :
  forall h check form db n1 n2 c,
    (forall p, check (h p) p = true) ->
    register_form_ok form = true ->
    same_identity form db = [] ->
    let db' := fst (register h form db) in
    let c' := new_captcha n1 n2 c in
    let r := login check
                   (mkLoginForm (f_student_id form) (f_password form)
                                (f_year form) (str_of_int (n1 + n2)))
                   c' db' in
    snd r = mkAuthResponse (GoTo ep_dashboard) [LoginSuccessful]
    /\ s_user_id (session_of (fst r)) = Some (next_user_id db)
    /\ c_captcha_solution (fst r) = None.
Proof.
  intros h check form db n1 n2 c Hcheck Hform Hnew. cbv zeta.
  rewrite register_run, Hform, Hnew. cbn [andb is_empty fst].
  unfold login. cbn [lf_student_id lf_password lf_year lf_captcha_answer].
  rewrite captcha_ok_new. cbn [negb].
  assert (Hvalid : valid_student_id (f_year form) (Py.strip (f_student_id form))
                   = true).
  { unfold register_form_ok in Hform. rewrite !andb_true_iff in Hform. tauto. }
  rewrite Hvalid. cbn [negb].
  unfold after_register, set_users. cbn [users].
  rewrite filter_app. cbn [filter u_student_id].
  rewrite String.eqb_refl.
  assert (Hold : filter (fun u => String.eqb (u_student_id u)
                                             (Py.strip (f_student_id form)))
                        (users db) = []).
  { unfold same_identity in Hnew. rewrite filter_nil_iff in *.
    intros u Hu. specialize (Hnew u Hu). apply orb_false_iff in Hnew. tauto. }
  rewrite Hold. cbn [app u_password_hash]. rewrite Hcheck.
  repeat split.
Qed.

Lemma register_then_login_witness :
  snd (login String.eqb
             (mkLoginForm "2025123456" "Abc123@5" 1 (str_of_int (3 + 4)))
             (new_captcha 3 4 empty_cookie)
             (fst (register (fun p => p) hostile_form db0)))
  = mkAuthResponse (GoTo ep_dashboard) [LoginSuccessful].
Proof.
  apply (register_then_login (fun p => p) String.eqb hostile_form db0 3 4
                             empty_cookie);
    [intros p; apply String.eqb_refl | reflexivity | reflexivity].
Defined.

(** After [logout] the session opens nothing: the index page is shown
    instead of a redirect, and no request made with that session writes to
    the store. *)
Theorem logout_ends_access :
  forall c,
    index (fst (logout c)) = mkAuthResponse RenderIndex []
    /\ forall r db,
         session_of_request r = Some (session_of (fst (logout c))) ->
         fst (handle r db) = db.
Proof.
  intros c. split; [reflexivity|].
  intros r db Hr.
  destruct r; cbn in Hr; try discriminate; injection Hr as ->; reflexivity.
Qed.

Lemma logout_ends_access_witness :
  fst (handle (ConfirmBooking
                 (session_of (fst (logout (logged_in alice empty_cookie))))
                 1 1 (Naive 0)) db0) = db0.
Proof.
  apply (proj2 (logout_ends_access (logged_in alice empty_cookie))).
  reflexivity.
Defined.

(** ** Admin accounts *)

(** The permissions record is never consulted: an admin registered by
    [admin_reg] gets the default permissions, in which deleting schedules is
    switched off, yet after logging in the session passes the only test of
    [cancel_schedule] and the schedule is deleted (given that the hash of a
    password verifies against that password). *)
Theorem admin_permissions_unused :
  forall h check form t c n1 n2 db sid,
    (forall p, check (h p) p = true) ->
    password_ok (af_admin_password form) = true ->
    same_admin form t = [] ->
    let t1 := fst (admin_reg h form t) in
    let r := admin_login check (af_admin_id form) (af_admin_password form)
                         (str_of_int (n1 + n2)) (new_captcha n1 n2 c) t1 in
    snd r = mkAuthResponse (GoTo ep_admin_panel) [AdminLoginSuccessful]
    /\ c_admin_id (fst (fst r)) = Some (next_admin_id t)
    /\ In (default_permissions (next_admin_id t)) (admin_permissions (snd (fst r)))
    /\ can_delete_schedules (default_permissions (next_admin_id t)) = false
    /\ cancel_schedule (session_of (fst (fst r))) sid db
       = (after_delete sid db,
          respond (Redirect ep_manage_buses) ScheduleCancelled).
Proof.
  intros h check form t c n1 n2 db sid Hcheck Hpw Hnew. cbv zeta.
  unfold admin_reg. rewrite Hpw, Hnew. cbn [negb is_empty fst].
  unfold admin_login. rewrite captcha_ok_new. cbn [negb admins].
  rewrite filter_app. cbn [filter admin_username].
  rewrite String.eqb_refl.
  assert (Hold : filter (fun a => String.eqb (admin_username a) (af_admin_id form))
                        (admins t) = []).
  { unfold same_admin in Hnew. rewrite filter_nil_iff in *.
    intros a Ha. specialize (Hnew a Ha). apply orb_false_iff in Hnew. tauto. }
  rewrite Hold. cbn [app admin_password_hash]. rewrite Hcheck.
  cbn [fst snd]. split; [reflexivity|]. split; [reflexivity|].
  split; [cbn; apply in_or_app; right; now left|].
  split; [reflexivity|].
  rewrite cancel_schedule_run. reflexivity.
Qed.

Lemma admin_permissions_unused_witness :
  cancel_schedule
    (session_of
       (fst (fst (admin_login String.eqb "root" "Abc123@5" (str_of_int (2 + 9))
                    (new_captcha 2 9 empty_cookie)
                    (fst (admin_reg (fun p => p)
                            (mkAdminForm "root" "Root" "Abc123@5" "r@x" "1")
                            (mkAdminTables [] [] [] [] 1)))))))
    1 db0
  = (after_delete 1 db0, respond (Redirect ep_manage_buses) ScheduleCancelled).
Proof.
  apply (admin_permissions_unused (fun p => p) String.eqb
           (mkAdminForm "root" "Root" "Abc123@5" "r@x" "1")
           (mkAdminTables [] [] [] [] 1) empty_cookie 2 9 db0 1);
    [intros p; apply String.eqb_refl | reflexivity | reflexivity].
Defined.

Lemma login_captcha_use_witness :
  let c := new_captcha 3 4 empty_cookie in
  let form := mkLoginForm "2025000001" "h1" 1 "7" in
  a_flashes (snd (login String.eqb form c db0)) = [LoginSuccessful]
  /\ login String.eqb form (fst (login String.eqb form c db0)) db0
     = (fst (login String.eqb form c db0),
        mkAuthResponse RenderLogin [IncorrectCaptcha]).
Proof.
  cbv zeta. split; [reflexivity|].
  apply (proj1 (login_captcha_use String.eqb
                  (mkLoginForm "2025000001" "h1" 1 "7")
                  (new_captcha 3 4 empty_cookie) db0)).
  reflexivity.
Defined.

(** ** Seeding *)

Lemma filter_snoc_nonempty {A} (p : A -> bool) (l : list A) (x : A) :
  p x = true -> filter p (l ++ [x]) <> [].
Proof.
  intros Hx H. rewrite filter_app in H. cbn in H. rewrite Hx in H.
  apply app_eq_nil in H. destruct H as [_ H]. discriminate.
Qed.

(** [init_db] can be run again without harm: a second run, whatever keys
    the store would hand out, writes nothing.  After a run a bus numbered
    BUS001 exists, and when the run created it, an admin can create a
    schedule on it for any seat count up to 40. *)
Theorem init_db_idempotent :
  forall r1 b1 r2 b2 db,
    init_db r2 b2 (init_db r1 b1 db) = init_db r1 b1 db
    /\ buses_by_number "BUS001" (init_db r1 b1 db) <> []
    /\ (forall sess admin d t n,
          s_is_admin sess = true ->
          s_admin_id sess = Some admin ->
          buses_by_number "BUS001" db = [] ->
          n <= 40 ->
          snd (create_slot sess "BUS001" d t n (init_db r1 b1 db))
          = respond (Redirect ep_admin_panel) ScheduleCreated).
Proof.
  intros r1 b1 r2 b2 db.
  assert (Hroute :
    filter (fun r => String.eqb (route_name r) "GITAM to Miyapur")
           (routes (init_db r1 b1 db)) <> []).
  { unfold init_db. cbn [routes].
    destruct (filter _ (routes db)) as [|r rs] eqn:E.
    - now apply filter_snoc_nonempty.
    - rewrite E. discriminate. }
  assert (Hbus : buses_by_number "BUS001" (init_db r1 b1 db) <> []).
  { unfold buses_by_number, init_db. cbn [buses].
    destruct (filter (fun b => String.eqb (bus_number b) "BUS001") (buses db))
      as [|b bs] eqn:E.
    - now apply filter_snoc_nonempty.
    - rewrite E. discriminate. }
  split; [|split; [exact Hbus|]].
  - unfold init_db at 1.
    destruct (filter _ (routes (init_db r1 b1 db))); [congruence|].
    unfold buses_by_number in Hbus.
    destruct (filter _ (buses (init_db r1 b1 db))); [congruence|].
    destruct (init_db r1 b1 db). reflexivity.
  - intros sess admin d t n Ha Hid Hnone Hn.
    unfold create_slot. rewrite Ha. cbn [negb].
    unfold guarded, bind, gets. cbv beta.
    unfold buses_by_number in *. unfold init_db at 1. cbn [buses].
    rewrite Hnone, filter_app, Hnone. cbn.
    replace (n >? 40) with false
      by (symmetry; rewrite Z.gtb_ltb; apply Z.ltb_ge; lia).
    rewrite Hid. reflexivity.
Qed.

Lemma init_db_idempotent_witness :
  snd (create_slot as_admin "BUS001" "2025-04-01" "06:00" 40
         (init_db 1 1 (mkDB [] [] [] [] [] [] 1 1 1)))
  = respond (Redirect ep_admin_panel) ScheduleCreated.
Proof.
  apply (proj2 (proj2 (init_db_idempotent 1 1 2 2
                         (mkDB [] [] [] [] [] [] 1 1 1))) as_admin 1);
    [reflexivity | reflexivity | reflexivity | lia].
Defined.

(** ** The year claimed at login *)

Lemma valid_year_unique y1 y2 s :
  valid_student_id y1 s = true -> valid_student_id y2 s = true -> y1 = y2.
Proof.
  intros H1 H2. apply valid_student_id_cases in H1, H2.
  unfold Py.startswith in *.
  destruct H1 as [[-> [P1 _]]|[[-> [P1 _]]|[[-> [P1 _]]|[-> [P1 _]]]]];
    destruct H2 as [[-> [P2 _]]|[[-> [P2 _]]|[[-> [P2 _]]|[-> [P2 _]]]]];
    try reflexivity; exfalso;
    apply prefix_app in P1, P2; destruct P1 as [q1 Q1], P2 as [q2 Q2];
    rewrite Q1 in Q2; discriminate Q2.
Qed.

(** On a store whose users are sound, a login is granted only under the
    year the student is stored with: the session then belongs to a stored
    user whose student id is the one submitted (stripped) and whose year is
    the year of the form. *)
Theorem login_year_matches :
  forall check form c db,
    users_ok db ->
    a_flashes (snd (login check form c db)) = [LoginSuccessful] ->
    exists user,
      In user (users db)
      /\ u_student_id user = Py.strip (lf_student_id form)
      /\ u_year user = lf_year form
      /\ fst (login check form c db) = logged_in user c
      /\ check (u_password_hash user) (lf_password form) = true.
Proof.
  intros check form c db [Hall _]. unfold login.
  destruct (negb (captcha_ok c (lf_captcha_answer form))); [discriminate|].
  destruct (valid_student_id (lf_year form) (Py.strip (lf_student_id form)))
    eqn:Hvalid; cbn [negb]; [|discriminate].
  destruct (filter _ (users db)) as [|user rest] eqn:Hsel; [discriminate|].
  destruct (check (u_password_hash user) (lf_password form)) eqn:Hpw;
    [|discriminate].
  intros _. exists user.
  assert (Hin : In user (users db)
                /\ String.eqb (u_student_id user)
                              (Py.strip (lf_student_id form)) = true).
  { apply (head_filter_In
             (fun u => String.eqb (u_student_id u)
                                  (Py.strip (lf_student_id form)))
             (users db) user).
    rewrite Hsel. reflexivity. }
  destruct Hin as [Hin Hid]. apply String.eqb_eq in Hid.
  rewrite Forall_forall in Hall. destruct (Hall user Hin) as [_ [_ [_ [Hu _]]]].
  repeat split; auto.
  apply (valid_year_unique _ _ (u_student_id user)); [exact Hu|].
  rewrite Hid. exact Hvalid.
Qed.

Lemma login_year_matches_witness :
  exists user,
    In user (users db0) /\ u_year user = 1
    /\ fst (login String.eqb (mkLoginForm " 2025000002" "h2" 1 "11")
                  (new_captcha 5 6 empty_cookie) db0)
       = logged_in user (new_captcha 5 6 empty_cookie).
Proof.
  destruct (login_year_matches String.eqb
              (mkLoginForm " 2025000002" "h2" 1 "11")
              (new_captcha 5 6 empty_cookie) db0 users_ok_db0 eq_refl)
    as [user [Hin [_ [Hy [Hc _]]]]].
  exists user. repeat split; assumption.
Defined.
